(** * EDI 944 converter: the conversion wrapper and the session configuration

    A shallow embedding of [app/converter.py] and [app/config.py].

    The converter sends a prompt to a chat-completion service through a
    LangChain chain and hands back the answer with the surrounding
    whitespace removed.  The service is outside the program, so the chain
    call is a parameter of the development: a function from the chain, its
    inputs and the state of the outside world to an outcome.  Everything
    the Python code itself does (choice of the template, the [dict] test,
    [strip], the exception wrapper, the session dictionary) is modelled
    by executable definitions. *)

From Stdlib Require Import String Ascii List Bool Arith ZArith QArith Lia ZifyNat.
From stdpp Require Import gmap strings.
Import ListNotations.

Set Warnings "-register-all".

Local Open Scope string_scope.
Local Open Scope list_scope.

(** ** Python values *)

(** The values that flow through the two modules.  A Python [str] is a
    [string] whose characters are the code points below 256.  A [dict]
    with [str] keys keeps its items in insertion order.  [PyObj] stands
    for an object of any other class: it carries the name of its class,
    its [str()] and its [repr()] rendering, and has no string methods. *)
Inductive pyval : Type :=
| PyNone
| PyStr (s : string)
| PyList (l : list pyval)
| PyDict (d : list (string * pyval))
| PyObj (cls : string) (shown : string) (repred : string).

(** Exceptions: the class and the message, which is what [str(e)] gives. *)
Record pyexn : Type := PyExn { exn_class : string; exn_msg : string }.

Inductive py_result (A : Type) : Type :=
| Return (a : A)
| Raise (e : pyexn).
Arguments Return {A} a.
Arguments Raise {A} e.

(** Records written through [loguru]'s [logger]. *)
Inductive log_level : Type := INFO | WARNING | ERROR.
Record log_record : Type := LogRecord { level : log_level; message : string }.

Module Py.

Definition backslash : ascii := ascii_of_nat 92.
Definition dquote : ascii := ascii_of_nat 34.
Definition squote : ascii := ascii_of_nat 39.

(** [key in d] and [d[key]] for a [dict]. *)
Fixpoint dict_get (d : list (string * pyval)) (key : string) : option pyval :=
  match d with
  | [] => None
  | (k, v) :: rest => if String.eqb k key then Some v else dict_get rest key
  end.

Definition dict_contains (d : list (string * pyval)) (key : string) : bool :=
  match dict_get d key with Some _ => true | None => false end.

(** [v == s] for a [str] literal [s]: only an equal [str] compares equal. *)
Definition eq_str (v : pyval) (s : string) : bool :=
  match v with
  | PyStr t => String.eqb t s
  | _ => false
  end.

(** Truth value of an object, as an [if] tests it. *)
Definition truthy (v : pyval) : bool :=
  match v with
  | PyNone => false
  | PyStr s => negb (String.eqb s "")
  | PyList l => match l with [] => false | _ => true end
  | PyDict d => match d with [] => false | _ => true end
  | PyObj _ _ _ => true
  end.

Definition type_name (v : pyval) : string :=
  match v with
  | PyNone => "NoneType"
  | PyStr _ => "str"
  | PyList _ => "list"
  | PyDict _ => "dict"
  | PyObj cls _ _ => cls
  end.

(** [str.isspace] on one character: the ASCII white space, the four
    separators 0x1c-0x1f, NEL (0x85) and the no-break space (0xa0). *)
Definition isspace (c : ascii) : bool :=
  let n := nat_of_ascii c in
  (Nat.leb 9 n && Nat.leb n 13) || (Nat.leb 28 n && Nat.leb n 32)
  || Nat.eqb n 133 || Nat.eqb n 160.

Fixpoint lstrip (s : string) : string :=
  match s with
  | EmptyString => EmptyString
  | String c rest => if isspace c then lstrip rest else s
  end.

Fixpoint rstrip (s : string) : string :=
  match s with
  | EmptyString => EmptyString
  | String c rest =>
      match rstrip rest with
      | EmptyString => if isspace c then EmptyString else String c EmptyString
      | kept => String c kept
      end
  end.

(** [s.strip()] *)
Definition strip (s : string) : string := rstrip (lstrip s).

(** [v.strip()] on an arbitrary value: only a [str] has the method. *)
Definition call_strip (v : pyval) : py_result string :=
  match v with
  | PyStr s => Return (strip s)
  | _ => Raise (PyExn "AttributeError"
                  (String squote (type_name v) +:+ String squote " object has no attribute "
                  +:+ String squote "strip" +:+ String squote ""))
  end.

(** *** [repr] and [str] *)

Definition hex_digit (n : nat) : ascii :=
  match n with
  | 0 => "0" | 1 => "1" | 2 => "2" | 3 => "3" | 4 => "4" | 5 => "5"
  | 6 => "6" | 7 => "7" | 8 => "8" | 9 => "9" | 10 => "a" | 11 => "b"
  | 12 => "c" | 13 => "d" | 14 => "e" | _ => "f"
  end%char.

Definition escape (c : ascii) : string := String backslash (String c EmptyString).

Definition hex_escape (n : nat) : string :=
  String backslash (String "x" (String (hex_digit (n / 16))
                                  (String (hex_digit (n mod 16)) EmptyString))).

Fixpoint has_char (c : ascii) (s : string) : bool :=
  match s with
  | EmptyString => false
  | String c' rest => Ascii.eqb c c' || has_char c rest
  end.

(** Characters [repr] leaves as they are among the code points from 128
    on: all but the C1 controls, the no-break space and the soft hyphen. *)
Definition printable_high (n : nat) : bool :=
  Nat.leb 161 n && negb (Nat.eqb n 173).

Definition repr_char (quote : ascii) (c : ascii) : string :=
  let n := nat_of_ascii c in
  if Ascii.eqb c quote || Ascii.eqb c backslash then escape c
  else if Nat.eqb n 9 then escape "t"
  else if Nat.eqb n 10 then escape "n"
  else if Nat.eqb n 13 then escape "r"
  else if Nat.ltb n 32 || Nat.eqb n 127 then hex_escape n
  else if Nat.ltb n 127 then String c EmptyString
  else if printable_high n then String c EmptyString
  else hex_escape n.

Fixpoint repr_chars (quote : ascii) (s : string) : string :=
  match s with
  | EmptyString => EmptyString
  | String c rest => repr_char quote c +:+ repr_chars quote rest
  end.

(** [repr] of a [str]: single quotes, unless the text has a single
    quote and no double quote. *)
Definition repr_str (s : string) : string :=
  let quote : ascii :=
    if has_char squote s && negb (has_char dquote s) then dquote else squote in
  String quote (repr_chars quote s) +:+ String quote EmptyString.

Fixpoint join (sep : string) (parts : list string) : string :=
  match parts with
  | [] => EmptyString
  | [p] => p
  | p :: rest => p +:+ sep +:+ join sep rest
  end.

Fixpoint repr (v : pyval) : string :=
  match v with
  | PyNone => "None"
  | PyStr s => repr_str s
  | PyList l => "[" +:+ join ", " (map repr l) +:+ "]"
  | PyDict d =>
      "{" +:+ join ", " (map (fun kv => match kv with
                                        | (k, x) => repr_str k +:+ ": " +:+ repr x
                                        end) d) +:+ "}"
  | PyObj _ _ repred => repred
  end.

(** [str(v)] *)
Definition str (v : pyval) : string :=
  match v with
  | PyStr s => s
  | PyObj _ shown _ => shown
  | _ => repr v
  end.

End Py.

(** ** The converter ([app/converter.py]) *)

(** The LangChain objects the constructor builds.  They are plain data
    here; what a chain does when it is invoked is decided outside the
    program. *)
Record ChatOpenAI : Type := MkChatOpenAI {
  temperature : Q;
  llm_api_key : pyval;
  model_name : string
}.

Record PromptTemplate : Type := MkPromptTemplate {
  template : string;
  input_variables : list string
}.

Record LLMChain : Type := MkLLMChain {
  chain_llm : ChatOpenAI;
  chain_prompt : PromptTemplate
}.

(** The prompt for the standard mode, [self.standard_template]. *)
Definition standard_template : string :=
"
        You are an expert in EDI (Electronic Data Interchange) formats, specifically focused on the EDI 944 
        Warehouse Stock Transfer Receipt Advice format. Your task is to convert tabular data into proper 
        EDI 944 code format that exactly follows the client's expected output structure.
        
        IMPORTANT FORMAT REQUIREMENTS:
        1. Use asterisk (*) as element separator and tilde (~) as segment terminator
        2. Include ISA/GS/ST header segments exactly as shown in the example
        3. Use W17 segment (NOT W27) for warehouse receipt identification
        4. Include N1 segments for entity identification
        5. Include N9 segments for reference information
        6. Use W07 segments (NOT W12) for item details
        7. Include G69 segments for item descriptions
        8. Add reference N9 segments for item attributes (colors, dimensions, weights)
        9. End with W14 segment for totals
        10. Close with SE/GE/IEA segments
        
        EDI 944 SEGMENT STRUCTURE:
        - ISA segment: ISA*00          00          ZZ*[sender]            ZZ*[receiver]     [date]*[time]*U*00401*[control#]*1*P*>~
        - GS segment: GS*RE*[sender]*[receiver]*[date]*[time]*[control#]*X*004010~
        - ST segment: ST*944*0001~
        - W17 segment: W17*[type]*[date]*[receipt-ID]*[shipment-ID]*[container-ID]*[count]*[quantity]~
        - N1 segment: N1*[entity type]*[entity ID]~
        - N9 segment: N9*[reference qualifier]*[reference ID]~
        - W07 segment: W07*[quantity]*[unit]*[product ID]*[qualifier]*[product code]~
        - G69 segment: G69*[product description]~
        - W14 segment: W14*[total quantity]~
        - SE segment: SE*[segment count]*0001~
        - GE segment: GE*1*[control#]~
        - IEA segment: IEA*1*[control#]~
        
        Sample REFERENCE EXAMPLE:
        
        Input:
        HDR|CAN|944|O|753515|1|753515-1|BSIU9579971|20250303||||OCEA|24940|R|20172|20172|20172|0|3/4/2025 4:47:26 PM||MIDAS EXPRESS INC. (LYNWOOD)||||||||CAN||||CHILDREN'S APPAREL NETWORK|LYN|||||||||||||||||||||||||||0|LYN|||||||||||||||||||||||||JESSICAL|
        DTL|45|PBDCB81-MFA|NA||EA|2340|1.3542|2340|1.3542|0|2340|1|N|L|0.000783680555555556|CF||||||||||||||||||||||||||||||45|||||||0||||||0|3/4/2025 4:47:26 PM|||18|17|8|8
        DTL|46|PBDCB82-MFA|NA||EA|1188|0.6875|1188|0.6875|0|1188|1|N|L|0.000397858796296296|CF||||||||||||||||||||||||||||||46|||||||0||||||0|3/4/2025 4:47:26 PM|||18|17|8|8
        DTL|41|PBDM708-MFA|NA||EA|1800|1.0417|1800|1.0417|0|1800|1|N|L|0.000602835648148148|CF||||||||||||||||||||||||||||||41|||||||0||||||0|3/4/2025 4:47:26 PM|||16|14|8|5
        
        Sample EDI 944 code:
        ISA*00          00          ZZ*DCG            ZZ*9083514477     220519*0800*U*00401*000001057*1*P*>~GS*RE*DCG*9083514477*20220519*0800*1057*X*004010~ST*944*0001~W17*F*20220516*EISU9397985-21104*21104*EISU9397985*9*1337~N1*WH*D7~N9*ZZ*EISU9397985~N9*IN*0100-128E EGLV11020001328~W07*3024*EA*196272171026*VN*HCZK203-STK~G69*3PC LIFE WITH MAMMALS SHORT SET~N9*CL*GREY~N9*SZ*PPK~N9*PO*CS22/0406~N9*LN*18.000~N9*WD*13.000~N9*HT*19.000~N9*WT*24.200~W07*6000*EA*196272482689*VN*HCZK403-STK~G69*3PC LIFE WITH MAMMALS SHORT SET~N9*CL*GREY~N9*SZ*PPK~N9*PO*CS22/0406~N9*LN*18.000~N9*WD*13.000~N9*HT*19.000~N9*WT*27.940~W14*31248~SE*70*0001~GE*1*1057~IEA*1*000001057~
        
        
        
        HANDLING EDGE CASES:
        1. If minimal data is provided, create appropriate placeholder values
        2. Include appropriate reference segments even if not explicitly in input
        3. Always use the correct delimiters as specified (*) and (~)
        4. Always include the complete set of required segments
        
        Convert the following tabular EDI 944 data into proper EDI 944 code format:
        
        {tabular_data}
        
        Provide ONLY the resulting EDI 944 code with no additional explanations, comments, or markdown.
        ".

(** The prompt for the Synapse mode, [self.synapse_template]. *)
Definition synapse_template : string :=
"
Your task is to convert Synapse EDI 944 data (tabular data) into standard EDI 944 code.

Note that the following examples are not inter-related. These are just examples for reference.

Sample Synapse EDI 944 data (Tabular):
HDR|CAN|944|O|753515|1|753515-1|BSIU9579971|20250303||||OCEA|24940|R|20172|20172|20172|0|3/4/2025 4:47:26 PM||MIDAS EXPRESS INC. (LYNWOOD)||||||||CAN||||CHILDREN'S APPAREL NETWORK|LYN|||||||||||||||||||||||||||0|LYN|||||||||||||||||||||||||JESSICAL|
DTL|45|PBDCB81-MFA|NA||EA|2340|1.3542|2340|1.3542|0|2340|1|N|L|0.000783680555555556|CF||||||||||||||||||||||||||||||45|||||||0||||||0|3/4/2025 4:47:26 PM|||18|17|8|8
DTL|46|PBDCB82-MFA|NA||EA|1188|0.6875|1188|0.6875|0|1188|1|N|L|0.000397858796296296|CF||||||||||||||||||||||||||||||46|||||||0||||||0|3/4/2025 4:47:26 PM|||18|17|8|8
DTL|41|PBDM708-MFA|NA||EA|1800|1.0417|1800|1.0417|0|1800|1|N|L|0.000602835648148148|CF||||||||||||||||||||||||||||||41|||||||0||||||0|3/4/2025 4:47:26 PM|||16|14|8|5
DTL|42|PBDM709-MFA|NA||EA|1152|0.6667|1152|0.6667|0|1152|1|N|L|0.000385821759259259|CF||||||||||||||||||||||||||||||42|||||||0||||||0|3/4/2025 4:47:26 PM|||16|14|8|5
DTL|43|PBDM908-MFA|NA||EA|2352|1.3611|2352|1.3611|0|2352|1|N|L|0.000787673611111111|CF||||||||||||||||||||||||||||||43|||||||0||||||0|3/4/2025 4:47:26 PM|||17|15|8|7
DTL|44|PBDM909-MFA|NA||EA|1776|1.0278|1776|1.0278|0|1776|1|N|L|0.000594791666666667|CF||||||||||||||||||||||||||||||44|||||||0||||||0|3/4/2025 4:47:26 PM|||17|15|8|7
DTL|40|PBGGB06-TJH|NA||EA|3600|2.0833|3600|2.0833|0|3600|1|N|L|0.00120561342592593|CF||||||||||||||||||||||||||||||40|||||||0||||||0|3/4/2025 4:47:26 PM|||19|16|11|20
DTL|37|PDUS902-LIC|NA||EA|6|0.0035|6|0.0035|0|6|1|N|L|2.02546296296296E-6|CF||||||||||||||||||||||||||||||37|||||||0||||||0|3/4/2025 4:47:26 PM|||16|16|4|4
DTL|38|PDUS902-MAR|NA||EA|5952|3.4444|5952|3.4444|0|5952|1|N|L|0.00199328703703704|CF||||||||||||||||||||||||||||||38|||||||0||||||0|3/4/2025 4:47:26 PM|||32|17|17|30
DTL|39|PYMW902-LIC|NA||EA|6|0.0035|6|0.0035|0|6|1|N|L|2.02546296296296E-6|CF||||||||||||||||||||||||||||||39|||||||0||||||0|3/4/2025 4:47:26 PM|||16|14|6|4

Sample EDI 944 code:
ISA*00          00          ZZ*DCG            ZZ*9083514477     220519*0800*U*00401*000001057*1*P*>~GS*RE*DCG*9083514477*20220519*0800*1057*X*004010~ST*944*0001~W17*F*20220516*EISU9397985-21104*21104*EISU9397985*9*1337~N1*WH*D7~N9*ZZ*EISU9397985~N9*IN*0100-128E EGLV11020001328~W07*3024*EA*196272171026*VN*HCZK203-STK~G69*3PC LIFE WITH MAMMALS SHORT SET~N9*CL*GREY~N9*SZ*PPK~N9*PO*CS22/0406~N9*LN*18.000~N9*WD*13.000~N9*HT*19.000~N9*WT*24.200~W07*6000*EA*196272482689*VN*HCZK403-STK~G69*3PC LIFE WITH MAMMALS SHORT SET~N9*CL*GREY~N9*SZ*PPK~N9*PO*CS22/0406~N9*LN*18.000~N9*WD*13.000~N9*HT*19.000~N9*WT*27.940~W07*6000*EA*196272598878*VN*HCZK404-STK~G69*3PC TINY BUT MIGHTY SHORT SET~N9*CL*GREEN~N9*SZ*PPK~N9*PO*CS22/0406~N9*LN*20.000~N9*WD*14.500~N9*HT*19.500~N9*WT*27.500~W07*3024*EA*196272729241*VN*HCZK206-STK~G69*3PC LION SHORT SET~N9*CL*YELLO~N9*SZ*PPK~N9*PO*CS22/0407~N9*LN*18.000~N9*WD*13.000~N9*HT*19.000~N9*WT*45.760~W07*6000*EA*196272730063*VN*HCZK406-STK~G69*3PC LION SHORT SET~N9*CL*YELLO~N9*SZ*PPK~N9*PO*CS22/0407~N9*LN*20.000~N9*WD*14.000~N9*HT*19.000~N9*WT*27.060~W07*6000*EA*196272215515*VN*HCZK606-STK~G69*3PC LION SHORT SET~N9*CL*YELLO~N9*SZ*PPK~N9*PO*CS22/0407~N9*LN*22.000~N9*WD*14.000~N9*HT*19.000~N9*WT*32.520~W07*1200*EA*196272246359*VN*HCZW823-STK~G69*3PC BUG EXPERT SHORT SET~N9*CL*WHITE~N9*SZ*PPK~N9*PO*CS22/0408~N9*LN*22.000~N9*WD*16.000~N9*HT*24.000~N9*WT*36.520~W14*31248~SE*70*0001~GE*1*1057~IEA*1*000001057~


   HANDLING EDGE CASES:
   1. If minimal data is provided, create appropriate placeholder values
   2. Include appropriate reference segments even if not explicitly in input
   3. CRITICAL: ALWAYS use asterisk (*) as element separator and tilde (~) as segment terminator after EVERY segment
   4. Always include the complete set of required segments
   5. Use N1*WH for warehouse and N1*ST for store/supplier consistently
   6. Ensure date formats are YYYYMMDD in all segments
   
Convert the following Synapse EDI 944 data (tabular) to standard EDI 944 code format:

{tabular_data}

Provide ONLY the resulting standard EDI 944 code with no explanations, comments, or markdown.
".

Record EDI944Converter : Type := MkEDI944Converter {
  api_key : pyval;
  mode : pyval;
  llm : ChatOpenAI;
  prompt : PromptTemplate;
  chain : LLMChain
}.

(** [EDI944Converter.__init__]: the template is the standard one exactly
    when [mode == "standard"], and the Synapse one otherwise. *)
Definition EDI944Converter_init (api_key mode : pyval) : EDI944Converter :=
  let llm := MkChatOpenAI (1 # 10) api_key "gpt-4" in
  let template :=
    if Py.eq_str mode "standard" then standard_template else synapse_template in
  let prompt := MkPromptTemplate template ["tabular_data"] in
  MkEDI944Converter api_key mode llm prompt (MkLLMChain llm prompt).

Section Conversion.

(** The state of everything outside the program that an answer of the
    service may depend on (its sampling, its load, the network). *)
Variable World : Type.

(** [chain.invoke(inputs)]: the chain, its inputs and the state of the
    world give either a returned object or a raised exception. *)
Variable invoke : LLMChain -> list (string * pyval) -> World -> py_result pyval.

(** The [try] body of [convert_tabular_to_edi944] after the first log
    line: call the chain, then take the text out of the result. *)
Definition extract_edi944_code (result : pyval) : py_result string :=
  match result with
  | PyDict d =>
      match Py.dict_get d "text" with
      | Some text => Py.call_strip text
      | None => Return (Py.strip (Py.str result))
      end
  | _ => Return (Py.strip (Py.str result))
  end.

(** [EDI944Converter.convert_tabular_to_edi944]: the log records written
    and the outcome.  Any exception of the [try] body is logged and
    replaced by an [Exception] whose message starts with
    [Error during conversion: ]. *)
Definition convert_tabular_to_edi944 (self : EDI944Converter)
    (tabular_data : string) (w : World) : list log_record * py_result string :=
  let mode_str :=
    if Py.eq_str (mode self) "standard" then "standard" else "Synapse-specific" in
  let started :=
    LogRecord INFO ("Starting conversion from tabular to " +:+ mode_str
                    +:+ " EDI 944 format using LangChain") in
  let attempt :=
    match invoke (chain self) [("tabular_data", PyStr tabular_data)] w with
    | Return result => extract_edi944_code result
    | Raise e => Raise e
    end in
  match attempt with
  | Return edi944_code =>
      ([started;
        LogRecord INFO ("Successfully converted tabular data to " +:+ mode_str
                        +:+ " EDI 944 format")],
       Return edi944_code)
  | Raise e =>
      let error_msg := "Error during conversion: " +:+ exn_msg e in
      ([started; LogRecord ERROR error_msg], Raise (PyExn "Exception" error_msg))
  end.

End Conversion.

Arguments convert_tabular_to_edi944 {World} invoke self tabular_data w.

(** ** EDI 944 streams *)

(** What the prompts say about an EDI 944 document, as checks on a
    string: [*] separates elements, [~] ends a segment, and the element
    positions are those of the [EDI 944 SEGMENT STRUCTURE] block of the
    standard template. *)
Module Edi.

Fixpoint split (sep : ascii) (s : string) : list string :=
  match s with
  | EmptyString => [EmptyString]
  | String c rest =>
      if Ascii.eqb c sep then EmptyString :: split sep rest
      else match split sep rest with
           | [] => [String c EmptyString]
           | piece :: pieces => String c piece :: pieces
           end
  end.

(** The text after the last terminator is not a segment when it is empty. *)
Fixpoint drop_empty_tail (pieces : list string) : list string :=
  match pieces with
  | [] => []
  | [p] => if String.eqb p "" then [] else [p]
  | p :: rest => p :: drop_empty_tail rest
  end.

Definition segments (edi : string) : list string :=
  drop_empty_tail (split "~" edi).

Definition elements (segment : string) : list string := split "*" segment.

Definition segment_id (segment : string) : string := hd "" (elements segment).

Definition element (i : nat) (segment : string) : option string :=
  nth_error (elements segment) i.

Definition segment_ids (edi : string) : list string :=
  map segment_id (segments edi).

Definition with_id (id : string) (edi : string) : list string :=
  filter (fun seg => String.eqb (segment_id seg) id) (segments edi).

(** *** Quantities *)

Definition digit (c : ascii) : option N :=
  let n := N_of_ascii c in
  if (48 <=? n)%N && (n <=? 57)%N then Some (n - 48)%N else None.

Fixpoint parse_digits (s : string) (acc : N) : option N :=
  match s with
  | EmptyString => Some acc
  | String c rest =>
      match digit c with
      | Some d => parse_digits rest (10 * acc + d)%N
      | None => None
      end
  end.

Definition parse_quantity (s : string) : option N :=
  match s with
  | EmptyString => None
  | _ => parse_digits s 0%N
  end.

Definition segment_quantity (segment : string) : option N :=
  match element 1 segment with
  | Some q => parse_quantity q
  | None => None
  end.

(** The quantities of the [W07] segments, in order. *)
Definition w07_quantities (edi : string) : list (option N) :=
  map segment_quantity (with_id "W07" edi).

(** The quantity of the trailing [W14] segment. *)
Definition w14_total (edi : string) : option N :=
  match last (with_id "W14" edi) with
  | Some seg => segment_quantity seg
  | None => None
  end.

Fixpoint sum_quantities (qs : list (option N)) : option N :=
  match qs with
  | [] => Some 0%N
  | Some q :: rest =>
      match sum_quantities rest with
      | Some total => Some (q + total)%N
      | None => None
      end
  | None :: _ => None
  end.

(** The [W14] total is the sum of the [W07] quantities. *)
Definition totals_hold (edi : string) : bool :=
  match w14_total edi, sum_quantities (w07_quantities edi) with
  | Some total, Some expected => (total =? expected)%N
  | _, _ => false
  end.

(** *** Control numbers *)

(** Element [i] of the first segment named [id]. *)
Definition control_number (id : string) (i : nat) (edi : string) : option string :=
  match with_id id edi with
  | seg :: _ => element i seg
  | [] => None
  end.

Definition same_control (a b : option string) : bool :=
  match a, b with
  | Some x, Some y => String.eqb x y
  | _, _ => false
  end.

Definition transaction_pair (edi : string) : bool :=
  same_control (control_number "ST" 2 edi) (control_number "SE" 2 edi).

Definition group_pair (edi : string) : bool :=
  same_control (control_number "GS" 6 edi) (control_number "GE" 2 edi).

Definition interchange_pair (edi : string) : bool :=
  same_control (control_number "ISA" 7 edi) (control_number "IEA" 2 edi).

Definition control_pairs (edi : string) : bool :=
  transaction_pair edi && group_pair edi && interchange_pair edi.

End Edi.

Definition newline : ascii := ascii_of_nat 10.

Fixpoint line_after (marker : string) (lines : list string) : option string :=
  match lines with
  | [] => None
  | l :: rest =>
      if String.eqb (Py.strip l) marker
      then match rest with
           | next :: _ => Some (Py.strip next)
           | [] => None
           end
      else line_after marker rest
  end.

Definition reference_example (template : string) : string :=
  match line_after "Sample EDI 944 code:" (Edi.split newline template) with
  | Some code => code
  | None => ""
  end.

(** *** Segment order *)

(** The order the prompts ask for, as an automaton over the segment
    names: ISA, GS, ST, W17, any number of N1, any number of N9, then
    for each line item a W07, a G69 and any number of N9, and at the end
    W14, SE, GE, IEA. *)
Module Order.

Inductive state : Type :=
| Start | SeenISA | SeenGS | SeenST
| Receipt        (* after W17 or an N1 *)
| ReceiptRefs    (* after a receipt-level N9 *)
| Item           (* after a W07 *)
| ItemRefs       (* after a G69 or an N9 of a line item *)
| SeenW14 | SeenSE | SeenGE | Done | Bad.

Definition named (name id : string) : bool := String.eqb name id.

Definition step (s : state) (id : string) : state :=
  match s with
  | Start => if named "ISA" id then SeenISA else Bad
  | SeenISA => if named "GS" id then SeenGS else Bad
  | SeenGS => if named "ST" id then SeenST else Bad
  | SeenST => if named "W17" id then Receipt else Bad
  | Receipt =>
      if named "N1" id then Receipt
      else if named "N9" id then ReceiptRefs
      else if named "W07" id then Item
      else if named "W14" id then SeenW14 else Bad
  | ReceiptRefs =>
      if named "N9" id then ReceiptRefs
      else if named "W07" id then Item
      else if named "W14" id then SeenW14 else Bad
  | Item => if named "G69" id then ItemRefs else Bad
  | ItemRefs =>
      if named "N9" id then ItemRefs
      else if named "W07" id then Item
      else if named "W14" id then SeenW14 else Bad
  | SeenW14 => if named "SE" id then SeenSE else Bad
  | SeenSE => if named "GE" id then SeenGE else Bad
  | SeenGE => if named "IEA" id then Done else Bad
  | Done => Bad
  | Bad => Bad
  end.

Definition run (ids : list string) : state := fold_left step ids Start.

Definition accepts (ids : list string) : bool :=
  match run ids with
  | Done => true
  | _ => false
  end.

End Order.

Definition segment_order (edi : string) : bool :=
  Order.accepts (Edi.segment_ids edi).

Definition has_segment (id : string) (edi : string) : bool :=
  existsb (String.eqb id) (Edi.segment_ids edi).

(** The envelope of an empty receipt: the three header and the three
    trailer segments, and a [W14] total of zero. *)
Definition empty_receipt_envelope (edi : string) : bool :=
  forallb (fun id => has_segment id edi) ["ISA"; "GS"; "ST"; "SE"; "GE"; "IEA"]
  && match Edi.w14_total edi with
     | Some total => (total =? 0)%N
     | None => false
     end.

(** ** Tabular input *)

(** The rows of the tabular input, in the layout of the sample data of
    the prompts: one row per line, fields separated by [|], a line item
    in a row that starts with [DTL], its product identifier in field 2
    and its quantity in field 6. *)
Module Tabular.

Definition rows (tabular_data : string) : list (list string) :=
  map (Edi.split "|") (Edi.split newline tabular_data).

Definition is_line_item (row : list string) : bool :=
  String.eqb (hd "" row) "DTL".

Definition line_items (tabular_data : string) : list (list string) :=
  filter is_line_item (rows tabular_data).

Definition field (i : nat) (row : list string) : string := nth i row "".

Definition incomplete (row : list string) : bool :=
  String.eqb (Py.strip (field 2 row)) "" || String.eqb (Py.strip (field 6 row)) "".

Definition has_incomplete_line_item (tabular_data : string) : bool :=
  existsb incomplete (line_items tabular_data).

Definition no_line_items (tabular_data : string) : bool :=
  match line_items tabular_data with
  | [] => true
  | _ => false
  end.

End Tabular.

(** ** Session configuration ([app/config.py]) *)

Module Config.

(** What the functions of the module read and write: Streamlit's
    [st.session_state] and the log. *)
Record app_state : Type := MkAppState {
  session_state : gmap string pyval;
  log : list log_record
}.

Definition emit (lvl : log_level) (msg : string) (s : app_state) : app_state :=
  MkAppState (session_state s) (log s ++ [LogRecord lvl msg]).

Definition set_item (key : string) (v : pyval) (s : app_state) : app_state :=
  MkAppState (<[key := v]> (session_state s)) (log s).

(** [if key not in st.session_state: st.session_state[key] = v] *)
Definition init_item (key : string) (v : pyval) (s : app_state) : app_state :=
  match session_state s !! key with
  | Some _ => s
  | None => set_item key v s
  end.

Definition init_session_state (s : app_state) : app_state :=
  let s := init_item "api_key" (PyStr "") s in
  let s := init_item "temp_file_path" PyNone s in
  let s := init_item "conversion_history" (PyList []) s in
  init_item "conversion_mode" (PyStr "standard") s.

Definition save_api_key (api_key : pyval) (s : app_state) : app_state :=
  emit INFO "API key saved to session state" (set_item "api_key" api_key s).

Definition key_error (key : string) : pyexn := PyExn "KeyError" (Py.repr_str key).

(** [os.environ] is a map from names to values; [get_api_key] reads it
    with [os.environ.get("OPENAI_API_KEY", "")]. *)
Definition get_api_key (environ : gmap string string) (s : app_state)
    : py_result pyval * app_state :=
  match session_state s !! "api_key" with
  | None => (Raise (key_error "api_key"), s)
  | Some stored =>
      if Py.truthy stored then (Return stored, s)
      else
        let env_api_key := default "" (environ !! "OPENAI_API_KEY") in
        if Py.truthy (PyStr env_api_key)
        then (Return (PyStr env_api_key), save_api_key (PyStr env_api_key) s)
        else (Return (PyStr ""), s)
  end.

(** [mode in ["standard", "synapse"]] *)
Definition valid_mode (mode : pyval) : bool :=
  Py.eq_str mode "standard" || Py.eq_str mode "synapse".

Definition set_conversion_mode (mode : pyval) (s : app_state) : app_state :=
  if valid_mode mode
  then emit INFO ("Conversion mode set to " +:+ Py.str mode)
         (set_item "conversion_mode" mode s)
  else emit WARNING ("Invalid conversion mode: " +:+ Py.str mode) s.

Definition get_conversion_mode (s : app_state) : pyval :=
  default (PyStr "standard") (session_state s !! "conversion_mode").

(** *** Runs of a session *)

(** The calls into the module, and the three places where [app/main.py]
    writes the session dictionary itself: it clears the key, stores the
    path of the download file, and appends to the history. *)
Inductive action : Type :=
| InitSessionState
| SaveApiKey (api_key : pyval)
| GetApiKey
| SetConversionMode (mode : pyval)
| GetConversionMode
| ClearApiKey
| StoreTempFilePath (path : string)
| AppendHistory (entry : pyval).

Definition append_history (entry : pyval) (s : app_state) : app_state :=
  match session_state s !! "conversion_history" with
  | Some (PyList l) => set_item "conversion_history" (PyList (l ++ [entry])) s
  | _ => s
  end.

Definition perform (environ : gmap string string) (s : app_state) (a : action)
    : app_state :=
  match a with
  | InitSessionState => init_session_state s
  | SaveApiKey k => save_api_key k s
  | GetApiKey => snd (get_api_key environ s)
  | SetConversionMode m => set_conversion_mode m s
  | GetConversionMode => s
  | ClearApiKey => set_item "api_key" (PyStr "") s
  | StoreTempFilePath path => set_item "temp_file_path" (PyStr path) s
  | AppendHistory entry => append_history entry s
  end.

Definition run (environ : gmap string string) (actions : list action)
    (s : app_state) : app_state :=
  fold_left (perform environ) actions s.

(** A new browser session: nothing stored, nothing logged. *)
Definition fresh : app_state := MkAppState ∅ [].

(** The stored mode, when there is one, is one of the two modes. *)
Definition mode_ok (s : app_state) : Prop :=
  match session_state s !! "conversion_mode" with
  | None => True
  | Some v => v = PyStr "standard" \/ v = PyStr "synapse"
  end.

End Config.

(** ** Services to run the converter against *)

(** A chain in the shape of LangChain's [LLMChain]: the result is the
    dictionary of the inputs with the answer under ["text"].  The
    answer is given by [answer], from the prompt template, the tabular
    data and the state of the world. *)
Definition tabular_input (inputs : list (string * pyval)) : string :=
  match Py.dict_get inputs "tabular_data" with
  | Some (PyStr data) => data
  | _ => ""
  end.

Definition llm_chain {World : Type} (answer : LLMChain -> string -> World -> string)
    (c : LLMChain) (inputs : list (string * pyval)) (w : World) : py_result pyval :=
  Return (PyDict (inputs ++ [("text", PyStr (answer c (tabular_input inputs) w))])).

(** A model that answers every request with the reference example of
    the prompt it was given. *)
Definition echo_example (c : LLMChain) (tabular_data : string) (w : unit) : string :=
  reference_example (template (chain_prompt c)).

(** A model that answers every request with a fixed text. *)
Definition fixed_answer (text : string) (c : LLMChain) (tabular_data : string)
    (w : unit) : string := text.

(** A model that samples: at temperature 0 the answer is fixed, above 0
    it depends on the draw, which is the state of the world. *)
Definition sampling_answer (first second : string) (c : LLMChain)
    (tabular_data : string) (draw : bool) : string :=
  if Qle_bool (temperature (chain_llm c)) 0 then first
  else if draw then first else second.

(** A chain of another LangChain version, whose result is a message
    object and not a [dict]. *)
Definition message_chain (content : string) (c : LLMChain)
    (inputs : list (string * pyval)) (w : unit) : py_result pyval :=
  Return (PyObj "AIMessage" content ("AIMessage(content=" +:+ Py.repr_str content +:+ ")")).

(** A service that is down. *)
Definition failing_chain (reason : string) (c : LLMChain)
    (inputs : list (string * pyval)) (w : unit) : py_result pyval :=
  Raise (PyExn "APIConnectionError" reason).

(** ** Sample runs *)

(** A converter as [app/main.py] builds it for the standard tab. *)
Definition standard_converter : EDI944Converter :=
  EDI944Converter_init (PyStr "sk-test-0123456789") (PyStr "standard").

Definition synapse_converter : EDI944Converter :=
  EDI944Converter_init (PyStr "sk-test-0123456789") (PyStr "synapse").

(** A receipt with two line items, of quantities 3024 and 6000. *)
Definition two_items : string :=
  "HDR|CAN|944|O|753515|1|753515-1|BSIU9579971|20250303|"
  +:+ String newline "DTL|1|HCZK203-STK|NA||EA|3024|"
  +:+ String newline "DTL|2|HCZK403-STK|NA||EA|6000|".

(** A receipt whose only line item has neither a product identifier nor
    a quantity. *)
Definition broken_item : string :=
  "HDR|CAN|944|O|753515|1|753515-1|BSIU9579971|20250303|"
  +:+ String newline "DTL|1||NA||EA||".

(** A receipt without line items. *)
Definition header_only : string :=
  "HDR|CAN|944|O|753515|1|753515-1|BSIU9579971|20250303|".

(** An answer whose trailers do not repeat the control numbers of the
    headers. *)
Definition mismatched_controls : string :=
  "ISA*00          00          ZZ*DCG            ZZ*9083514477     220519*0800*U*00401*000001057*1*P*>~"
  +:+ "GS*RE*DCG*9083514477*20220519*0800*1057*X*004010~ST*944*0001~"
  +:+ "W17*F*20220516*EISU9397985-21104*21104*EISU9397985*9*1337~W14*0~"
  +:+ "SE*4*0002~GE*1*1058~IEA*1*000001058~".

(** An answer with the totals segment ahead of the line item. *)
Definition misplaced_total : string :=
  "ISA*00          00          ZZ*DCG            ZZ*9083514477     220519*0800*U*00401*000001057*1*P*>~"
  +:+ "GS*RE*DCG*9083514477*20220519*0800*1057*X*004010~ST*944*0001~"
  +:+ "W17*F*20220516*EISU9397985-21104*21104*EISU9397985*9*1337~W14*3024~"
  +:+ "W07*3024*EA*196272171026*VN*HCZK203-STK~G69*3PC LIFE WITH MAMMALS SHORT SET~"
  +:+ "SE*6*0001~GE*1*1057~IEA*1*000001057~".

(** An answer in prose, as a chat model gives when it has nothing to
    convert. *)
Definition prose_answer : string :=
  "The input has no line items, so there is nothing to convert.".

(** ** Text search *)

Fixpoint starts_with (prefix s : string) : bool :=
  match prefix, s with
  | EmptyString, _ => true
  | String p prefix', String c s' => Ascii.eqb p c && starts_with prefix' s'
  | String _ _, EmptyString => false
  end.

Fixpoint contains (s needle : string) : bool :=
  starts_with needle s
  || match s with
     | EmptyString => false
     | String _ rest => contains rest needle
     end.

(** ** Files *)

(** The part of the file system the program touches: the text files by
    path, the directory [tempfile] creates its files in, and the random
    names it will draw, in order (it gives up when they run out). *)
Module Fs.

Record world : Type := MkWorld {
  files : gmap string string;
  tmpdir : string;
  names : list string
}.

Fixpoint ends_with_slash (s : string) : bool :=
  match s with
  | EmptyString => false
  | String c EmptyString => Ascii.eqb c "/"
  | String _ rest => ends_with_slash rest
  end.

Definition starts_with_slash (s : string) : bool :=
  match s with
  | String c _ => Ascii.eqb c "/"
  | EmptyString => false
  end.

(** [os.path.join(a, b)] *)
Definition path_join (a b : string) : string :=
  if starts_with_slash b then b
  else if String.eqb a "" || ends_with_slash a then a +:+ b
  else a +:+ "/" +:+ b.

(** [os.path.basename(p)]: what follows the last [/]. *)
Fixpoint basename (p : string) : string :=
  match p with
  | EmptyString => EmptyString
  | String c rest =>
      if Py.has_char "/" rest then basename rest
      else if Ascii.eqb c "/" then rest
      else p
  end.

(** The loop of [tempfile.mkstemp]: the first drawn name whose path is
    free is created, as an empty file. *)
Fixpoint mkstemp_inner (dir pre suf : string) (candidates : list string)
    (fs : gmap string string) : py_result string * gmap string string * list string :=
  match candidates with
  | [] =>
      (Raise (PyExn "FileExistsError" "[Errno 17] No usable temporary file name found"),
       fs, [])
  | name :: rest =>
      let file := path_join dir (pre +:+ name +:+ suf) in
      match fs !! file with
      | Some _ => mkstemp_inner dir pre suf rest fs
      | None => (Return file, <[file := ""]> fs, rest)
      end
  end.

Definition mkstemp (suffix prefix : string) (w : world) : py_result string * world :=
  match mkstemp_inner (tmpdir w) prefix suffix (names w) (files w) with
  | (r, fs, rest) => (r, MkWorld fs (tmpdir w) rest)
  end.

(** [with open(path, 'w') as f: f.write(text)] *)
Definition write (path text : string) (w : world) : world :=
  MkWorld (<[path := text]> (files w)) (tmpdir w) (names w).

(** [with open(path, 'r') as f: f.read()] *)
Definition read (path : string) (w : world) : py_result string :=
  match files w !! path with
  | Some text => Return text
  | None =>
      Raise (PyExn "FileNotFoundError"
               ("[Errno 2] No such file or directory: " +:+ Py.repr_str path))
  end.

End Fs.

(** The [mode_str] of [save_to_file]. *)
Definition mode_str_of (self : EDI944Converter) : string :=
  if Py.eq_str (mode self) "standard" then "standard" else "synapse".

(** [EDI944Converter.save_to_file]: the log records written, the path
    of the new file or the exception, and the file system afterwards. *)
Definition save_to_file (self : EDI944Converter) (edi944_code : string)
    (w : Fs.world) : list log_record * py_result string * Fs.world :=
  let mode_str := if Py.eq_str (mode self) "standard" then "standard" else "synapse" in
  let started :=
    LogRecord INFO ("Saving " +:+ mode_str +:+ " EDI 944 code to temporary file") in
  match Fs.mkstemp ".txt" ("edi944_" +:+ mode_str +:+ "_") w with
  | (Return temp_path, created) =>
      ([started; LogRecord INFO ("EDI 944 code saved to " +:+ temp_path)],
       Return temp_path,
       Fs.write temp_path edi944_code created)
  | (Raise e, unchanged) =>
      let error_msg := "Error saving EDI 944 code to file: " +:+ exn_msg e in
      ([started; LogRecord ERROR error_msg], Raise (PyExn "Exception" error_msg),
       unchanged)
  end.

(** ** Download links ([app/main.py]) *)

(** [str.encode()]: UTF-8, for the code points below 256. *)
Module Utf8.

Definition encode_char (c : ascii) : list nat :=
  let n := nat_of_ascii c in
  if Nat.ltb n 128 then [n] else [192 + n / 64; 128 + n mod 64].

Fixpoint encode (s : string) : list nat :=
  match s with
  | EmptyString => []
  | String c rest => encode_char c ++ encode rest
  end.

(** The reader's side: the text of a byte sequence, when it is the
    encoding of code points below 256. *)
Fixpoint decode (bytes : list nat) : option string :=
  match bytes with
  | [] => Some EmptyString
  | b :: rest =>
      if Nat.ltb b 128
      then match decode rest with
           | Some s => Some (String (ascii_of_nat b) s)
           | None => None
           end
      else match rest with
           | [] => None
           | b2 :: rest' =>
               if Nat.leb 194 b && Nat.ltb b 196 && Nat.leb 128 b2 && Nat.ltb b2 192
               then match decode rest' with
                    | Some s => Some (String (ascii_of_nat ((b - 192) * 64 + (b2 - 128))) s)
                    | None => None
                    end
               else None
           end
  end.

End Utf8.

(** [base64.b64encode], and the decoding a browser applies to a
    [data:] link. *)
Module Base64.

Definition alphabet : string :=
  "ABCDEFGHIJKLMNOPQRSTUVWXYZabcdefghijklmnopqrstuvwxyz0123456789+/".

Definition pad : ascii := "="%char.

Definition char_of (sextet : nat) : ascii :=
  match String.get sextet alphabet with
  | Some c => c
  | None => pad
  end.

Fixpoint encode (bytes : list nat) : string :=
  match bytes with
  | [] => EmptyString
  | [a] =>
      String (char_of (a / 4)) (String (char_of (a mod 4 * 16))
        (String pad (String pad EmptyString)))
  | [a; b] =>
      String (char_of (a / 4)) (String (char_of (a mod 4 * 16 + b / 16))
        (String (char_of (b mod 16 * 4)) (String pad EmptyString)))
  | a :: b :: c :: rest =>
      String (char_of (a / 4)) (String (char_of (a mod 4 * 16 + b / 16))
        (String (char_of (b mod 16 * 4 + c / 64)) (String (char_of (c mod 64))
          (encode rest))))
  end.

Fixpoint index_from (i : nat) (c : ascii) (letters : string) : option nat :=
  match letters with
  | EmptyString => None
  | String l rest => if Ascii.eqb c l then Some i else index_from (S i) c rest
  end.

Definition index_of (c : ascii) : option nat := index_from 0 c alphabet.

Fixpoint decode (s : string) : option (list nat) :=
  match s with
  | EmptyString => Some []
  | String c1 (String c2 (String c3 (String c4 rest))) =>
      match index_of c1, index_of c2 with
      | Some i1, Some i2 =>
          if Ascii.eqb c3 pad
          then if Ascii.eqb c4 pad && String.eqb rest ""
               then Some [i1 * 4 + i2 / 16]
               else None
          else match index_of c3 with
               | Some i3 =>
                   if Ascii.eqb c4 pad
                   then if String.eqb rest ""
                        then Some [i1 * 4 + i2 / 16; i2 mod 16 * 16 + i3 / 4]
                        else None
                   else match index_of c4, decode rest with
                        | Some i4, Some tail =>
                            Some (i1 * 4 + i2 / 16 :: i2 mod 16 * 16 + i3 / 4
                                  :: i3 mod 4 * 64 + i4 :: tail)
                        | _, _ => None
                        end
               | None => None
               end
      | _, _ => None
      end
  | _ => None
  end.

End Base64.


(** The [<a>] element of [get_download_link]. *)
Definition anchor (b64 filename link_text : string) : string :=
  "<a href=" +:+ String Py.dquote ("data:text/plain;base64," +:+ b64)
  +:+ String Py.dquote " download=" +:+ String Py.dquote filename
  +:+ String Py.dquote ">" +:+ link_text +:+ "</a>".

(** [get_download_link]: the log records written and the value
    returned, the link or [None]. *)
Definition get_download_link (file_path link_text : string) (w : Fs.world)
    : list log_record * pyval :=
  match Fs.read file_path w with
  | Return file_content =>
      let b64 := Base64.encode (Utf8.encode file_content) in
      let filename := Fs.basename file_path in
      ([], PyStr (anchor b64 filename link_text))
  | Raise e =>
      ([LogRecord ERROR ("Error generating download link: " +:+ exn_msg e)], PyNone)
  end.

(** ** The page ([app/main.py]) *)

(** Calls into Streamlit, recorded in the order they are made. *)
Inductive ui_call : Type :=
| StError (msg : string)
| StSuccess (msg : string)
| StSubheader (msg : string)
| StSpinner (msg : string)
| StMarkdown (body : pyval)
| StRerun.

(** What a run of the page script reads and writes: the session and the
    log, the files, and the calls made to Streamlit so far. *)
Record page : Type := MkPage {
  app : Config.app_state;
  disk : Fs.world;
  screen : list ui_call
}.

Definition show (calls : list ui_call) (p : page) : page :=
  MkPage (app p) (disk p) (screen p ++ calls).

Definition logged (records : list log_record) (s : Config.app_state) : Config.app_state :=
  Config.MkAppState (Config.session_state s) (Config.log s ++ records).

(** [validate_api_key]: the key is tried on the service only when it is
    not empty and at least ten characters long once stripped.  The call
    [llm.invoke("Hello")] of the test model is, like the chain call, a
    parameter. *)
Definition validate_api_key {World : Type}
    (llm_invoke : ChatOpenAI -> string -> World -> py_result pyval)
    (api_key : string) (w : World) : list log_record * bool :=
  if negb (Py.truthy (PyStr api_key)) || Nat.ltb (String.length (Py.strip api_key)) 10
  then ([], false)
  else
    let testing := LogRecord INFO "Testing OpenAI API key with LangChain ChatOpenAI" in
    match llm_invoke (MkChatOpenAI 0 (PyStr api_key) "gpt-3.5-turbo") "Hello" w with
    | Return _ => ([testing; LogRecord INFO "API key validation successful"], true)
    | Raise e =>
        ([testing; LogRecord ERROR ("API key validation error: " +:+ exn_msg e)], false)
    end.

(** A test model that answers every request, and one that refuses
    every key. *)
Definition answering_llm (model : ChatOpenAI) (request : string) (w : unit)
    : py_result pyval :=
  Return (PyObj "AIMessage" "Hello! How can I assist you today?"
            "AIMessage(content='Hello! How can I assist you today?')").

Definition refusing_llm (model : ChatOpenAI) (request : string) (w : unit)
    : py_result pyval :=
  Raise (PyExn "AuthenticationError" "Incorrect API key provided").

(** A page at the start of a session, after [init_session_state]. *)
Definition first_page : page :=
  MkPage (Config.init_session_state Config.fresh)
         (Fs.MkWorld ∅ "/tmp" ["k3x9_qzp"; "w81mabc0"]) [].

(** The page once a key is in the session. *)
Definition ready_page : page :=
  MkPage (Config.save_api_key (PyStr "sk-test-0123456789") (app first_page))
         (disk first_page) [].

(** The body of [if submit_button:] in the form of the sidebar. *)
Definition submit_api_key {World : Type}
    (llm_invoke : ChatOpenAI -> string -> World -> py_result pyval)
    (api_key : string) (w : World) (p : page) : page :=
  if Py.truthy (PyStr api_key) && Nat.ltb 10 (String.length (Py.strip api_key))
  then
    let attempting := LogRecord INFO "Attempting to validate API key" in
    match validate_api_key llm_invoke api_key w with
    | (records, true) =>
        MkPage (Config.save_api_key (PyStr api_key) (logged (attempting :: records) (app p)))
               (disk p)
               (screen p ++ [StSuccess "API key saved successfully!"; StRerun])
    | (records, false) =>
        MkPage (logged (attempting :: records) (app p)) (disk p)
               (screen p ++ [StError "Invalid API key. Please check and try again."])
    end
  else show [StError "Please enter a valid API key."] p.

(** The body of [if st.sidebar.button("Change API Key"):]. *)
Definition change_api_key (p : page) : page :=
  MkPage (Config.set_item "api_key" (PyStr "") (app p)) (disk p) (screen p ++ [StRerun]).

(** What differs between the two conversion tabs. *)
Record tab : Type := MkTab {
  tab_mode : string;
  tab_label : string;
  tab_heading : string;
  tab_download : string
}.

Definition standard_tab : tab :=
  MkTab "standard" "Standard EDI 944" "Generated Standard EDI 944 Code"
        "Download Standard EDI 944 Code".

Definition synapse_tab : tab :=
  MkTab "synapse" "Synapse EDI 944" "Generated Synapse EDI 944 Code"
        "Download Synapse EDI 944 Code".

(** [text[:100] + "..." if len(text) > 100 else text] *)
Definition preview (text : string) : string :=
  if Nat.ltb 100 (String.length text) then String.substring 0 100 text +:+ "..."
  else text.

Fixpoint spaces (n : nat) : string :=
  match n with
  | O => EmptyString
  | S k => String " " (spaces k)
  end.

(** The block the generated code is displayed in. *)
Definition output_box (edi_code : string) : string :=
  String newline (spaces 28) +:+ "<div class=" +:+ String Py.dquote "output-box"
  +:+ String Py.dquote ">" +:+ String newline (spaces 28) +:+ edi_code
  +:+ String newline (spaces 28) +:+ "</div>" +:+ String newline (spaces 28).

Definition history_entry (t : tab) (timestamp data edi_code file_path : string) : pyval :=
  PyDict [("timestamp", PyStr timestamp);
          ("mode", PyStr (tab_label t));
          ("input", PyStr (preview data));
          ("output", PyStr (preview edi_code));
          ("file_path", PyStr file_path)].

(** The [except] branch of a conversion tab. *)
Definition conversion_failed (e : pyexn) (p : page) : page :=
  MkPage (logged [LogRecord ERROR ("Conversion error: " +:+ exn_msg e)] (app p))
         (disk p)
         (screen p ++ [StError ("Error during conversion: " +:+ exn_msg e)]).

(** [st.session_state['conversion_history'].append(entry)] *)
Definition history_append (entry : pyval) (s : Config.app_state)
    : py_result Config.app_state :=
  match Config.session_state s !! "conversion_history" with
  | None => Raise (Config.key_error "conversion_history")
  | Some (PyList l) =>
      Return (Config.set_item "conversion_history" (PyList (l ++ [entry])) s)
  | Some other =>
      Raise (PyExn "AttributeError"
               (String Py.squote (Py.type_name other) +:+ String Py.squote
                  " object has no attribute " +:+ String Py.squote "append"
                  +:+ String Py.squote ""))
  end.

(** The body of [if standard_convert_button:] and of
    [if synapse_convert_button:]: [data] is the text of the input area
    and [timestamp] the formatted time of the click. *)
Definition convert_clicked {World : Type}
    (invoke : LLMChain -> list (string * pyval) -> World -> py_result pyval)
    (environ : gmap string string) (t : tab) (data timestamp : string) (w : World)
    (p : page) : page :=
  if negb (Py.truthy (PyStr data))
  then show [StError "Please enter tabular data to convert."] p
  else
    let p := show [StSpinner "Converting data... This may take a moment."] p in
    match Config.get_api_key environ (app p) with
    | (Raise e, s1) => conversion_failed e (MkPage s1 (disk p) (screen p))
    | (Return key, s1) =>
        let converter := EDI944Converter_init key (PyStr (tab_mode t)) in
        match convert_tabular_to_edi944 invoke converter data w with
        | (records, Raise e) =>
            conversion_failed e (MkPage (logged records s1) (disk p) (screen p))
        | (records, Return edi_code) =>
            let s2 := logged records s1 in
            match save_to_file converter edi_code (disk p) with
            | (saving, Raise e, d) =>
                conversion_failed e (MkPage (logged saving s2) d (screen p))
            | (saving, Return file_path, d) =>
                let s3 := Config.set_item "temp_file_path" (PyStr file_path)
                            (logged saving s2) in
                match history_append
                        (history_entry t timestamp data edi_code file_path) s3 with
                | Raise e => conversion_failed e (MkPage s3 d (screen p))
                | Return s4 =>
                    match get_download_link file_path (tab_download t) d with
                    | (linking, download_link) =>
                        MkPage (logged linking s4) d
                          (screen p ++
                             [StSuccess "Conversion completed successfully!";
                              StSubheader (tab_heading t);
                              StMarkdown (PyStr (output_box edi_code));
                              StMarkdown download_link])
                    end
                end
            end
        end
    end.

(** The history of a session, as a list; empty when there is none. *)
Definition history (s : Config.app_state) : list pyval :=
  match Config.session_state s !! "conversion_history" with
  | Some (PyList l) => l
  | _ => []
  end.

(** An entry as the conversion tabs write it: the five keys, with
    previews of at most 103 characters. *)
Definition well_formed_entry (entry : pyval) : Prop :=
  exists timestamp label shown_input shown_output file_path,
    entry = PyDict [("timestamp", PyStr timestamp); ("mode", PyStr label);
                    ("input", PyStr shown_input); ("output", PyStr shown_output);
                    ("file_path", PyStr file_path)]
    /\ String.length shown_input <= 103
    /\ String.length shown_output <= 103.

(** ** Tactics *)


(** * Properties *)

(** ** The embedded prompts *)

Example standard_template_length : String.length standard_template = 3949.
Proof. vm_compute. reflexivity. Qed.

Example synapse_template_length : String.length synapse_template = 4257.
Proof. vm_compute. reflexivity. Qed.

Lemma templates_differ : standard_template <> synapse_template.
Proof.
  intros Heq. apply (f_equal String.length) in Heq.
  rewrite standard_template_length, synapse_template_length in Heq.
  discriminate Heq.
Qed.

Example strip_both_ends :
  Py.strip (String newline "  ST*944*0001~ " +:+ String newline "") = "ST*944*0001~".
Proof. reflexivity. Qed.

Example strip_keeps_inner_space : Py.strip " N9*IN*0100-128E EGLV ~ " = "N9*IN*0100-128E EGLV ~".
Proof. reflexivity. Qed.

Example str_of_dict :
  Py.str (PyDict [("tabular_data", PyStr "a'b"); ("n", PyNone)])
  = "{'tabular_data': " +:+ String Py.dquote "a'b" +:+ String Py.dquote ", 'n': None}".
Proof. reflexivity. Qed.

(** ** Stripping *)

Lemma lstrip_head (s : string) :
  match Py.lstrip s with
  | EmptyString => True
  | String c _ => Py.isspace c = false
  end.
Proof.
  induction s as [|c rest IH]; simpl; [exact I|].
  destruct (Py.isspace c) eqn:Hc; [exact IH | exact Hc].
Qed.

Lemma lstrip_fixed (s : string) :
  match s with
  | EmptyString => True
  | String c _ => Py.isspace c = false
  end -> Py.lstrip s = s.
Proof.
  destruct s as [|c rest]; simpl; [reflexivity|].
  intros Hc. rewrite Hc. reflexivity.
Qed.

Lemma rstrip_head (s : string) :
  match s with
  | EmptyString => True
  | String c _ => Py.isspace c = false
  end ->
  match Py.rstrip s with
  | EmptyString => s = EmptyString
  | String c _ => Py.isspace c = false
  end.
Proof.
  destruct s as [|c rest]; simpl; [reflexivity|].
  intros Hc. destruct (Py.rstrip rest); [rewrite Hc|]; exact Hc.
Qed.

Lemma rstrip_idempotent (s : string) : Py.rstrip (Py.rstrip s) = Py.rstrip s.
Proof.
  induction s as [|c rest IH]; simpl; [reflexivity|].
  destruct (Py.rstrip rest) as [|k kept] eqn:Hr.
  - destruct (Py.isspace c) eqn:Hc; simpl; [reflexivity|]. rewrite Hc. reflexivity.
  - simpl in *. rewrite IH. reflexivity.
Qed.

(** Stripping twice is stripping once: the text the converter returns
    has no white space left at either end. *)
Lemma strip_idempotent (s : string) : Py.strip (Py.strip s) = Py.strip s.
Proof.
  unfold Py.strip.
  assert (Hl : Py.lstrip (Py.rstrip (Py.lstrip s)) = Py.rstrip (Py.lstrip s)).
  { apply lstrip_fixed. pose proof (rstrip_head (Py.lstrip s) (lstrip_head s)) as H.
    destruct (Py.rstrip (Py.lstrip s)); [exact I | exact H]. }
  rewrite Hl. apply rstrip_idempotent.
Qed.

(** ** The conversion wrapper *)

Section ConversionFacts.

Context {World : Type}.
Variable invoke : LLMChain -> list (string * pyval) -> World -> py_result pyval.

(** The outcome of a conversion, by cases on what the chain did. *)
Lemma convert_outcome (self : EDI944Converter) (tabular_data : string) (w : World) :
  snd (convert_tabular_to_edi944 invoke self tabular_data w) =
  match invoke (chain self) [("tabular_data", PyStr tabular_data)] w with
  | Return result =>
      match extract_edi944_code result with
      | Return code => Return code
      | Raise e => Raise (PyExn "Exception" ("Error during conversion: " +:+ exn_msg e))
      end
  | Raise e => Raise (PyExn "Exception" ("Error during conversion: " +:+ exn_msg e))
  end.
Proof.
  unfold convert_tabular_to_edi944.
  destruct (invoke _ _ w) as [result|e]; [|reflexivity].
  destruct (extract_edi944_code result); reflexivity.
Qed.

(** A chain result with a string under ["text"] gives that string,
    stripped. *)
Lemma convert_text (self : EDI944Converter) (tabular_data : string) (w : World)
    (d : list (string * pyval)) (text : string) :
  invoke (chain self) [("tabular_data", PyStr tabular_data)] w = Return (PyDict d) ->
  Py.dict_get d "text" = Some (PyStr text) ->
  snd (convert_tabular_to_edi944 invoke self tabular_data w) = Return (Py.strip text).
Proof.
  intros Hinv Htext. rewrite convert_outcome, Hinv. simpl. rewrite Htext. reflexivity.
Qed.

End ConversionFacts.

(** What [llm_chain] returns has the answer under ["text"]. *)
Lemma llm_chain_text {World : Type} (answer : LLMChain -> string -> World -> string)
    (c : LLMChain) (tabular_data : string) (w : World) :
  exists d, llm_chain answer c [("tabular_data", PyStr tabular_data)] w = Return (PyDict d)
            /\ Py.dict_get d "text" = Some (PyStr (answer c tabular_data w)).
Proof. eexists. split; reflexivity. Qed.

(** C1. The conversion does not transform the data itself: what it
    returns is the answer of the chain with the white space at both ends
    removed.  When the chain result is a [dict] with a string under
    ["text"], the output is that string stripped; when the result is not
    a [dict] with a ["text"] key, the output is [str(result)] stripped. *)
Theorem convert_returns_stripped_response :
  forall (World : Type)
         (invoke : LLMChain -> list (string * pyval) -> World -> py_result pyval)
         (self : EDI944Converter) (tabular_data : string) (w : World)
         (result : pyval),
    invoke (chain self) [("tabular_data", PyStr tabular_data)] w = Return result ->
    (forall d text,
        result = PyDict d -> Py.dict_get d "text" = Some (PyStr text) ->
        snd (convert_tabular_to_edi944 invoke self tabular_data w)
        = Return (Py.strip text))
    /\ ((forall d, result = PyDict d -> Py.dict_contains d "text" = false) ->
        snd (convert_tabular_to_edi944 invoke self tabular_data w)
        = Return (Py.strip (Py.str result))).
Proof.
  intros World invoke self tabular_data w result Hinv. split.
  - intros d text -> Htext. exact (convert_text invoke self tabular_data w d text Hinv Htext).
  - intros Hno. rewrite convert_outcome, Hinv.
    destruct result as [|s|l|d|cls shown repred]; try reflexivity.
    specialize (Hno d eq_refl). unfold Py.dict_contains in Hno.
    unfold extract_edi944_code.
    destruct (Py.dict_get d "text"); [discriminate Hno | reflexivity].
Qed.

Lemma convert_returns_stripped_response_witness :
  snd (convert_tabular_to_edi944
         (llm_chain (fixed_answer (String newline "ST*944*0001~SE*2*0001~  ")))
         standard_converter two_items tt)
  = Return "ST*944*0001~SE*2*0001~"
  /\ snd (convert_tabular_to_edi944 (message_chain "  W14*9024~ ")
            standard_converter two_items tt)
     = Return "W14*9024~".
Proof.
  split.
  - exact (proj1 (convert_returns_stripped_response unit
                    (llm_chain (fixed_answer (String newline "ST*944*0001~SE*2*0001~  ")))
                    standard_converter two_items tt _ eq_refl)
                 _ _ eq_refl eq_refl).
  - apply (proj2 (convert_returns_stripped_response unit (message_chain "  W14*9024~ ")
                    standard_converter two_items tt _ eq_refl)).
    intros d Hd. discriminate Hd.
Defined.

(** ** The choice of the prompt *)

Lemma eq_str_true (v : pyval) (s : string) : Py.eq_str v s = true <-> v = PyStr s.
Proof.
  destruct v as [|t|l|d|cls shown repred]; simpl; split; intros H;
    try discriminate H.
  - apply String.eqb_eq in H. subst t. reflexivity.
  - injection H as ->. apply String.eqb_refl.
Qed.

Lemma eq_str_false (v : pyval) (s : string) : Py.eq_str v s = false <-> v <> PyStr s.
Proof.
  split.
  - intros H Heq. apply eq_str_true in Heq. congruence.
  - intros H. destruct (Py.eq_str v s) eqn:E; [|reflexivity].
    apply eq_str_true in E. contradiction.
Qed.

(** C8. The constructor takes the Synapse prompt for every mode other
    than the string ["standard"], the modes it does not know included;
    only ["standard"] gives the standard prompt, and the two prompts
    differ.  The mode is stored as given: no mode is rejected. *)
Theorem init_selects_template :
  forall (key requested : pyval),
    let self := EDI944Converter_init key requested in
    (requested = PyStr "standard" -> template (prompt self) = standard_template)
    /\ (requested <> PyStr "standard" -> template (prompt self) = synapse_template)
    /\ chain_prompt (chain self) = prompt self
    /\ mode self = requested
    /\ standard_template <> synapse_template.
Proof.
  intros key requested self. subst self. unfold EDI944Converter_init. simpl.
  repeat split.
  - intros ->. reflexivity.
  - intros Hne. apply eq_str_false in Hne. rewrite Hne. reflexivity.
  - exact templates_differ.
Qed.

Lemma init_selects_template_witness :
  template (prompt (EDI944Converter_init (PyStr "k") (PyStr "standard"))) = standard_template
  /\ template (prompt (EDI944Converter_init (PyStr "k") (PyStr "synapse"))) = synapse_template
  /\ template (prompt (EDI944Converter_init (PyStr "k") (PyStr "foo"))) = synapse_template
  /\ template (prompt (EDI944Converter_init (PyStr "k") (PyStr ""))) = synapse_template
  /\ template (prompt (EDI944Converter_init (PyStr "k") PyNone)) = synapse_template.
Proof.
  split; [|split; [|split; [|split]]].
  - exact (proj1 (init_selects_template (PyStr "k") (PyStr "standard")) eq_refl).
  - apply (proj1 (proj2 (init_selects_template (PyStr "k") (PyStr "synapse")))).
    intros H. discriminate H.
  - apply (proj1 (proj2 (init_selects_template (PyStr "k") (PyStr "foo")))).
    intros H. discriminate H.
  - apply (proj1 (proj2 (init_selects_template (PyStr "k") (PyStr "")))).
    intros H. discriminate H.
  - apply (proj1 (proj2 (init_selects_template (PyStr "k") PyNone))).
    intros H. discriminate H.
Defined.

(** ** The session configuration *)

Module ConfigFacts.
Import Config.

Lemma session_emit lvl msg s : session_state (emit lvl msg s) = session_state s.
Proof. reflexivity. Qed.

Lemma session_set_item key v s :
  session_state (set_item key v s) = <[key := v]> (session_state s).
Proof. reflexivity. Qed.

Lemma session_save_api_key k s :
  session_state (save_api_key k s) = <[ "api_key" := k ]> (session_state s).
Proof. reflexivity. Qed.

(** Initialising an entry other than the mode leaves the mode alone. *)
Lemma init_item_other key v s :
  key <> "conversion_mode" ->
  session_state (init_item key v s) !! "conversion_mode"
  = session_state s !! "conversion_mode".
Proof.
  intros Hne. unfold init_item.
  destruct (session_state s !! key); [reflexivity|].
  rewrite session_set_item. apply lookup_insert_ne. exact Hne.
Qed.

Lemma init_item_mode s :
  session_state (init_item "conversion_mode" (PyStr "standard") s) !! "conversion_mode"
  = Some (default (PyStr "standard") (session_state s !! "conversion_mode")).
Proof.
  unfold init_item.
  destruct (session_state s !! "conversion_mode") as [v|] eqn:E.
  - rewrite E. reflexivity.
  - rewrite session_set_item. apply lookup_insert_eq.
Qed.

Lemma init_session_state_mode s :
  session_state (init_session_state s) !! "conversion_mode"
  = Some (default (PyStr "standard") (session_state s !! "conversion_mode")).
Proof.
  unfold init_session_state. rewrite init_item_mode.
  rewrite !init_item_other by discriminate. reflexivity.
Qed.

Lemma valid_mode_spec m :
  valid_mode m = true <-> m = PyStr "standard" \/ m = PyStr "synapse".
Proof.
  unfold valid_mode. rewrite orb_true_iff, !eq_str_true. reflexivity.
Qed.

Lemma set_conversion_mode_valid m s :
  valid_mode m = true ->
  session_state (set_conversion_mode m s) = <[ "conversion_mode" := m ]> (session_state s).
Proof. intros H. unfold set_conversion_mode. rewrite H. reflexivity. Qed.

Lemma set_conversion_mode_invalid m s :
  valid_mode m = false ->
  session_state (set_conversion_mode m s) = session_state s.
Proof. intros H. unfold set_conversion_mode. rewrite H. reflexivity. Qed.

Lemma get_api_key_mode environ s :
  session_state (snd (get_api_key environ s)) !! "conversion_mode"
  = session_state s !! "conversion_mode".
Proof.
  unfold get_api_key.
  destruct (session_state s !! "api_key") as [stored|]; [|reflexivity].
  destruct (Py.truthy stored); [reflexivity|].
  destruct (Py.truthy _); [|reflexivity].
  simpl. apply lookup_insert_ne. discriminate.
Qed.

Lemma append_history_mode entry s :
  session_state (append_history entry s) !! "conversion_mode"
  = session_state s !! "conversion_mode".
Proof.
  unfold append_history.
  destruct (session_state s !! "conversion_history") as [[| | l | |]|];
    try reflexivity.
  simpl. apply lookup_insert_ne. discriminate.
Qed.

(** Every action keeps the stored mode one of the two modes. *)
Lemma perform_mode_ok environ s a : mode_ok s -> mode_ok (perform environ s a).
Proof.
  unfold mode_ok. intros Hs.
  destruct a as [|k| |m| | |path|entry]; simpl.
  - rewrite init_session_state_mode.
    destruct (session_state s !! "conversion_mode"); simpl; [exact Hs | left; reflexivity].
  - rewrite lookup_insert_ne by discriminate. exact Hs.
  - rewrite get_api_key_mode. exact Hs.
  - destruct (valid_mode m) eqn:Hm.
    + rewrite set_conversion_mode_valid by exact Hm.
      rewrite lookup_insert_eq. apply valid_mode_spec. exact Hm.
    + rewrite set_conversion_mode_invalid by exact Hm. exact Hs.
  - exact Hs.
  - rewrite lookup_insert_ne by discriminate. exact Hs.
  - rewrite lookup_insert_ne by discriminate. exact Hs.
  - rewrite append_history_mode. exact Hs.
Qed.

Lemma run_mode_ok environ actions s : mode_ok s -> mode_ok (run environ actions s).
Proof.
  unfold run. revert s.
  induction actions as [|a rest IH]; intros s Hs; simpl; [exact Hs|].
  apply IH. apply perform_mode_ok. exact Hs.
Qed.

Lemma get_conversion_mode_ok s :
  mode_ok s ->
  get_conversion_mode s = PyStr "standard" \/ get_conversion_mode s = PyStr "synapse".
Proof.
  unfold mode_ok, get_conversion_mode.
  destruct (session_state s !! "conversion_mode"); simpl; [tauto | left; reflexivity].
Qed.

End ConfigFacts.

Lemma truthy_str (s : string) : Py.truthy (PyStr s) = true <-> s <> "".
Proof.
  simpl. rewrite negb_true_iff. split.
  - intros H ->. discriminate H.
  - intros H. apply String.eqb_neq. exact H.
Qed.

(** C9. [get_api_key] prefers the session to the environment.  A
    non-empty key in the session is returned as it is and nothing
    changes.  Otherwise a non-empty [OPENAI_API_KEY] of the environment
    is first saved into the session (by [save_api_key]) and then
    returned.  When both are empty the empty string is returned and
    nothing changes. *)
Theorem get_api_key_precedence :
  forall (environ : gmap string string) (s : Config.app_state) (stored : pyval),
    Config.session_state s !! "api_key" = Some stored ->
    (Py.truthy stored = true ->
     Config.get_api_key environ s = (Return stored, s))
    /\ (Py.truthy stored = false ->
        forall env_key,
          environ !! "OPENAI_API_KEY" = Some env_key -> env_key <> "" ->
          Config.get_api_key environ s
          = (Return (PyStr env_key), Config.save_api_key (PyStr env_key) s)
          /\ Config.session_state (Config.save_api_key (PyStr env_key) s) !! "api_key"
             = Some (PyStr env_key))
    /\ (Py.truthy stored = false ->
        environ !! "OPENAI_API_KEY" = None \/ environ !! "OPENAI_API_KEY" = Some "" ->
        Config.get_api_key environ s = (Return (PyStr ""), s)).
Proof.
  intros environ s stored Hs. unfold Config.get_api_key. rewrite Hs.
  split; [|split].
  - intros ->. reflexivity.
  - intros -> env_key Henv Hne. rewrite Henv. simpl default.
    apply truthy_str in Hne. rewrite Hne. split; [reflexivity|].
    rewrite ConfigFacts.session_save_api_key. apply lookup_insert_eq.
  - intros -> [Henv|Henv]; rewrite Henv; reflexivity.
Qed.

Lemma get_api_key_precedence_witness :
  let session := Config.set_item "api_key" (PyStr "sk-session") Config.fresh in
  let blank := Config.init_session_state Config.fresh in
  let env : gmap string string := {[ "OPENAI_API_KEY" := "sk-environment" ]} in
  Config.get_api_key env session = (Return (PyStr "sk-session"), session)
  /\ fst (Config.get_api_key env blank) = Return (PyStr "sk-environment")
  /\ Config.session_state (snd (Config.get_api_key env blank)) !! "api_key"
     = Some (PyStr "sk-environment")
  /\ Config.get_api_key ∅ blank = (Return (PyStr ""), blank).
Proof.
  intros session blank env.
  assert (Hsession : Config.session_state session !! "api_key" = Some (PyStr "sk-session"))
    by (vm_compute; reflexivity).
  assert (Hblank : Config.session_state blank !! "api_key" = Some (PyStr ""))
    by (vm_compute; reflexivity).
  assert (Henv : env !! "OPENAI_API_KEY" = Some "sk-environment")
    by (vm_compute; reflexivity).
  assert (Hne : "sk-environment" <> "") by discriminate.
  split; [|split; [|split]].
  - exact (proj1 (get_api_key_precedence env session _ Hsession) eq_refl).
  - rewrite (proj1 (proj1 (proj2 (get_api_key_precedence env blank _ Hblank))
                      eq_refl _ Henv Hne)).
    reflexivity.
  - rewrite (proj1 (proj1 (proj2 (get_api_key_precedence env blank _ Hblank))
                      eq_refl _ Henv Hne)).
    exact (proj2 (proj1 (proj2 (get_api_key_precedence env blank _ Hblank))
                    eq_refl _ Henv Hne)).
  - apply (proj2 (proj2 (get_api_key_precedence ∅ blank _ Hblank)) eq_refl).
    left. apply lookup_empty.
Defined.

(** C10. The conversion mode of a session is always ["standard"] or
    ["synapse"].  [init_session_state] sets a missing mode to
    ["standard"]; [set_conversion_mode] stores its argument when it is
    one of the two modes and leaves the session dictionary as it is for
    every other argument; [get_conversion_mode] gives ["standard"] when
    no mode is stored.  So after any run of a session, from a new
    session, the mode read back is one of the two. *)
Theorem conversion_mode_invariant :
  (forall s,
      Config.session_state s !! "conversion_mode" = None ->
      Config.session_state (Config.init_session_state s) !! "conversion_mode"
      = Some (PyStr "standard"))
  /\ (forall m s,
        m = PyStr "standard" \/ m = PyStr "synapse" ->
        Config.session_state (Config.set_conversion_mode m s)
        = <[ "conversion_mode" := m ]> (Config.session_state s))
  /\ (forall m s,
        m <> PyStr "standard" -> m <> PyStr "synapse" ->
        Config.session_state (Config.set_conversion_mode m s) = Config.session_state s)
  /\ (forall s,
        Config.session_state s !! "conversion_mode" = None ->
        Config.get_conversion_mode s = PyStr "standard")
  /\ (forall environ actions,
        let s := Config.run environ actions Config.fresh in
        Config.mode_ok s
        /\ (Config.get_conversion_mode s = PyStr "standard"
            \/ Config.get_conversion_mode s = PyStr "synapse")).
Proof.
  split; [|split; [|split; [|split]]].
  - intros s Hs. rewrite ConfigFacts.init_session_state_mode, Hs. reflexivity.
  - intros m s Hm. apply ConfigFacts.set_conversion_mode_valid.
    apply ConfigFacts.valid_mode_spec. exact Hm.
  - intros m s H1 H2. apply ConfigFacts.set_conversion_mode_invalid.
    destruct (Config.valid_mode m) eqn:E; [|reflexivity].
    apply ConfigFacts.valid_mode_spec in E. tauto.
  - intros s Hs. unfold Config.get_conversion_mode. rewrite Hs. reflexivity.
  - intros environ actions s.
    assert (Hok : Config.mode_ok s).
    { apply ConfigFacts.run_mode_ok. unfold Config.mode_ok. simpl.
      rewrite lookup_empty. exact I. }
    split; [exact Hok | exact (ConfigFacts.get_conversion_mode_ok s Hok)].
Qed.

Lemma conversion_mode_invariant_witness :
  Config.session_state (Config.init_session_state Config.fresh) !! "conversion_mode"
  = Some (PyStr "standard")
  /\ Config.get_conversion_mode
       (Config.set_conversion_mode (PyStr "synapse")
          (Config.init_session_state Config.fresh)) = PyStr "synapse"
  /\ Config.session_state
       (Config.set_conversion_mode (PyStr "foo") (Config.init_session_state Config.fresh))
     = Config.session_state (Config.init_session_state Config.fresh)
  /\ Config.get_conversion_mode Config.fresh = PyStr "standard".
Proof.
  split; [|split; [|split]].
  - apply (proj1 conversion_mode_invariant). apply lookup_empty.
  - unfold Config.get_conversion_mode.
    rewrite (proj1 (proj2 conversion_mode_invariant) (PyStr "synapse")
               (Config.init_session_state Config.fresh) (or_intror eq_refl)).
    rewrite lookup_insert_eq. reflexivity.
  - apply (proj1 (proj2 (proj2 conversion_mode_invariant))); intros H; discriminate H.
  - apply (proj1 (proj2 (proj2 (proj2 conversion_mode_invariant)))). apply lookup_empty.
Defined.

(** ** Two runs on the same input *)

(** C2, as stated, fails: the answer of the model is not a function of
    the input.  The chain is built with temperature 0.1, and a model
    that samples gives the same receipt two different outputs. *)
Lemma conversion_not_deterministic :
  Qeq (temperature (llm standard_converter)) (1 # 10)
  /\ snd (convert_tabular_to_edi944 (llm_chain (sampling_answer "W14*9024~" "W14*31248~"))
            standard_converter two_items true)
     = Return "W14*9024~"
  /\ snd (convert_tabular_to_edi944 (llm_chain (sampling_answer "W14*9024~" "W14*31248~"))
            standard_converter two_items false)
     = Return "W14*31248~"
  /\ snd (convert_tabular_to_edi944 (llm_chain (sampling_answer "W14*9024~" "W14*31248~"))
            standard_converter two_items true)
     <> snd (convert_tabular_to_edi944
               (llm_chain (sampling_answer "W14*9024~" "W14*31248~"))
               standard_converter two_items false).
Proof.
  split; [reflexivity|]. split; [reflexivity|]. split; [reflexivity|].
  intros Heq. discriminate Heq.
Qed.

(** C2, amended.  The conversion adds no variation of its own: two runs
    on the same input in which the chain gives the same outcome write
    the same log and give the same output or the same exception. *)
Theorem conversion_deterministic_given_response :
  forall (World : Type)
         (invoke : LLMChain -> list (string * pyval) -> World -> py_result pyval)
         (self : EDI944Converter) (tabular_data : string) (w1 w2 : World),
    invoke (chain self) [("tabular_data", PyStr tabular_data)] w1
    = invoke (chain self) [("tabular_data", PyStr tabular_data)] w2 ->
    convert_tabular_to_edi944 invoke self tabular_data w1
    = convert_tabular_to_edi944 invoke self tabular_data w2.
Proof.
  intros World invoke self tabular_data w1 w2 Hsame.
  unfold convert_tabular_to_edi944. rewrite Hsame. reflexivity.
Qed.

Lemma conversion_deterministic_given_response_witness :
  convert_tabular_to_edi944 (llm_chain (sampling_answer "W14*9024~" "W14*9024~"))
    standard_converter two_items true
  = convert_tabular_to_edi944 (llm_chain (sampling_answer "W14*9024~" "W14*9024~"))
      standard_converter two_items false.
Proof.
  apply (conversion_deterministic_given_response bool
           (llm_chain (sampling_answer "W14*9024~" "W14*9024~"))
           standard_converter two_items true false).
  reflexivity.
Defined.

(** ** Totals *)

(** C3, as stated, fails.  A model that repeats the reference example
    of the standard prompt answers a receipt of two line items, 3024 and
    6000, with two [W07] segments of these quantities and [W14*31248]. *)
Lemma totals_counterexample :
  exists out,
    snd (convert_tabular_to_edi944 (llm_chain echo_example)
           standard_converter two_items tt) = Return out
    /\ Edi.w07_quantities out = [Some 3024%N; Some 6000%N]
    /\ Edi.w14_total out = Some 31248%N
    /\ Edi.totals_hold out = false.
Proof.
  eexists. split; [vm_compute; reflexivity|].
  repeat split; vm_compute; reflexivity.
Qed.

(** C3, amended.  The conversion neither computes nor checks the total:
    the [W07] quantities and the [W14] total of the output are those of
    the stripped answer of the model, so the total is the sum of the
    quantities in the output exactly when it is in that answer.  The
    reference example of the standard prompt has the quantities 3024 and
    6000 and the total 31248; the one of the Synapse prompt has seven
    quantities whose sum is its total, 31248. *)
Theorem totals_follow_response :
  (forall (World : Type)
          (invoke : LLMChain -> list (string * pyval) -> World -> py_result pyval)
          (self : EDI944Converter) (tabular_data : string) (w : World)
          (d : list (string * pyval)) (text : string),
      invoke (chain self) [("tabular_data", PyStr tabular_data)] w = Return (PyDict d) ->
      Py.dict_get d "text" = Some (PyStr text) ->
      exists out,
        snd (convert_tabular_to_edi944 invoke self tabular_data w) = Return out
        /\ Edi.w07_quantities out = Edi.w07_quantities (Py.strip text)
        /\ Edi.w14_total out = Edi.w14_total (Py.strip text)
        /\ Edi.totals_hold out = Edi.totals_hold (Py.strip text))
  /\ Edi.w07_quantities (reference_example standard_template)
     = [Some 3024%N; Some 6000%N]
  /\ Edi.w14_total (reference_example standard_template) = Some 31248%N
  /\ Edi.sum_quantities (Edi.w07_quantities (reference_example synapse_template))
     = Some 31248%N
  /\ Edi.w14_total (reference_example synapse_template) = Some 31248%N.
Proof.
  split.
  - intros World invoke self tabular_data w d text Hinv Htext.
    exists (Py.strip text). split; [|repeat split].
    exact (convert_text invoke self tabular_data w d text Hinv Htext).
  - repeat split; vm_compute; reflexivity.
Qed.

Lemma totals_follow_response_witness :
  exists out,
    snd (convert_tabular_to_edi944 (llm_chain echo_example)
           synapse_converter two_items tt) = Return out
    /\ Edi.totals_hold out = true.
Proof.
  destruct (proj1 totals_follow_response unit (llm_chain echo_example)
              synapse_converter two_items tt _ _ eq_refl eq_refl)
    as [out [Hout [_ [_ Htotals]]]].
  exists out. split; [exact Hout|].
  rewrite Htotals. vm_compute. reflexivity.
Defined.

(** ** Control numbers *)

(** C4, as stated, fails.  The output is the answer of the model, and
    an answer whose trailers carry other control numbers than its
    headers is returned as it is. *)
Lemma control_numbers_counterexample :
  snd (convert_tabular_to_edi944 (llm_chain (fixed_answer mismatched_controls))
         standard_converter two_items tt) = Return mismatched_controls
  /\ Edi.control_number "ST" 2 mismatched_controls = Some "0001"
  /\ Edi.control_number "SE" 2 mismatched_controls = Some "0002"
  /\ Edi.control_number "GS" 6 mismatched_controls = Some "1057"
  /\ Edi.control_number "GE" 2 mismatched_controls = Some "1058"
  /\ Edi.control_number "ISA" 7 mismatched_controls = Some "000001057"
  /\ Edi.control_number "IEA" 2 mismatched_controls = Some "000001058"
  /\ Edi.control_pairs mismatched_controls = false.
Proof. repeat split; vm_compute; reflexivity. Qed.

(** C4, amended.  The conversion does not generate or compare control
    numbers: those of the output are those of the stripped answer of the
    model, so the ST/SE, GS/GE and ISA/IEA pairs match in the output
    exactly when they match in that answer.  In the reference examples
    of both prompts the three pairs match. *)
Theorem control_numbers_follow_response :
  (forall (World : Type)
          (invoke : LLMChain -> list (string * pyval) -> World -> py_result pyval)
          (self : EDI944Converter) (tabular_data : string) (w : World)
          (d : list (string * pyval)) (text : string),
      invoke (chain self) [("tabular_data", PyStr tabular_data)] w = Return (PyDict d) ->
      Py.dict_get d "text" = Some (PyStr text) ->
      exists out,
        snd (convert_tabular_to_edi944 invoke self tabular_data w) = Return out
        /\ Edi.transaction_pair out = Edi.transaction_pair (Py.strip text)
        /\ Edi.group_pair out = Edi.group_pair (Py.strip text)
        /\ Edi.interchange_pair out = Edi.interchange_pair (Py.strip text))
  /\ Edi.control_pairs (reference_example standard_template) = true
  /\ Edi.control_pairs (reference_example synapse_template) = true.
Proof.
  split.
  - intros World invoke self tabular_data w d text Hinv Htext.
    exists (Py.strip text). split; [|repeat split].
    exact (convert_text invoke self tabular_data w d text Hinv Htext).
  - split; vm_compute; reflexivity.
Qed.

Lemma control_numbers_follow_response_witness :
  exists out,
    snd (convert_tabular_to_edi944 (llm_chain echo_example)
           standard_converter two_items tt) = Return out
    /\ Edi.transaction_pair out = true
    /\ Edi.group_pair out = true
    /\ Edi.interchange_pair out = true.
Proof.
  destruct (proj1 control_numbers_follow_response unit (llm_chain echo_example)
              standard_converter two_items tt _ _ eq_refl eq_refl)
    as [out [Hout [Hst [Hgs Hisa]]]].
  exists out. split; [exact Hout|].
  rewrite Hst, Hgs, Hisa. repeat split; vm_compute; reflexivity.
Defined.

(** ** Validation *)

(** C5, as stated, fails.  The conversion does not look at the rows of
    its input: a receipt whose line item has no product identifier and
    no quantity is sent to the model like any other, and the answer is
    returned as the encoded output. *)
Lemma validation_counterexample :
  Tabular.has_incomplete_line_item broken_item = true
  /\ snd (convert_tabular_to_edi944 (llm_chain echo_example)
            standard_converter broken_item tt)
     = Return (reference_example standard_template).
Proof. split; vm_compute; reflexivity. Qed.

(** C5, amended.  The conversion validates nothing.  For every input,
    complete or not, a chain result with a string under ["text"] gives
    that string stripped as the output.  The only error it signals is an
    [Exception] whose message is [Error during conversion: ] followed by
    the message of an exception raised by the chain call or by taking
    the text out of its result. *)
Theorem conversion_errors_come_from_chain :
  forall (World : Type)
         (invoke : LLMChain -> list (string * pyval) -> World -> py_result pyval)
         (self : EDI944Converter) (tabular_data : string) (w : World),
    (forall d text,
        invoke (chain self) [("tabular_data", PyStr tabular_data)] w = Return (PyDict d) ->
        Py.dict_get d "text" = Some (PyStr text) ->
        snd (convert_tabular_to_edi944 invoke self tabular_data w)
        = Return (Py.strip text))
    /\ (forall e,
          snd (convert_tabular_to_edi944 invoke self tabular_data w) = Raise e ->
          exists cause,
            e = PyExn "Exception" ("Error during conversion: " +:+ exn_msg cause)
            /\ (invoke (chain self) [("tabular_data", PyStr tabular_data)] w = Raise cause
                \/ exists result,
                     invoke (chain self) [("tabular_data", PyStr tabular_data)] w
                     = Return result
                     /\ extract_edi944_code result = Raise cause)).
Proof.
  intros World invoke self tabular_data w. split.
  - intros d text Hinv Htext.
    exact (convert_text invoke self tabular_data w d text Hinv Htext).
  - intros e He. rewrite convert_outcome in He.
    destruct (invoke (chain self) [("tabular_data", PyStr tabular_data)] w)
      as [result|cause] eqn:Hinv.
    + destruct (extract_edi944_code result) as [code|cause] eqn:Hext;
        [discriminate He|].
      injection He as <-. exists cause. split; [reflexivity|].
      right. exists result. split; [reflexivity | exact Hext].
    + injection He as <-. exists cause. split; [reflexivity|]. left. reflexivity.
Qed.

Lemma conversion_errors_come_from_chain_witness :
  snd (convert_tabular_to_edi944 (llm_chain (fixed_answer " W14*0~ "))
         standard_converter broken_item tt) = Return "W14*0~"
  /\ exists cause,
       PyExn "Exception" "Error during conversion: Connection error."
       = PyExn "Exception" ("Error during conversion: " +:+ exn_msg cause)
       /\ (failing_chain "Connection error." (chain standard_converter)
             [("tabular_data", PyStr broken_item)] tt = Raise cause
           \/ exists result,
                failing_chain "Connection error." (chain standard_converter)
                  [("tabular_data", PyStr broken_item)] tt = Return result
                /\ extract_edi944_code result = Raise cause).
Proof.
  split.
  - exact (proj1 (conversion_errors_come_from_chain unit
                    (llm_chain (fixed_answer " W14*0~ ")) standard_converter
                    broken_item tt) _ _ eq_refl eq_refl).
  - exact (proj2 (conversion_errors_come_from_chain unit
                    (failing_chain "Connection error.") standard_converter
                    broken_item tt) _ eq_refl).
Defined.

(** ** A receipt without line items *)

(** C6, as stated, fails.  For a receipt without line items the output
    is again the answer of the model.  A model that repeats the
    reference example answers with a total of 31248, and one that
    answers in prose gives an output without any segment. *)
Lemma empty_receipt_counterexample :
  Tabular.no_line_items header_only = true
  /\ (exists out,
         snd (convert_tabular_to_edi944 (llm_chain echo_example)
                standard_converter header_only tt) = Return out
         /\ Edi.w14_total out = Some 31248%N
         /\ empty_receipt_envelope out = false)
  /\ snd (convert_tabular_to_edi944 (llm_chain (fixed_answer prose_answer))
            standard_converter header_only tt) = Return prose_answer
  /\ has_segment "ISA" prose_answer = false
  /\ has_segment "IEA" prose_answer = false
  /\ Edi.w14_total prose_answer = None
  /\ empty_receipt_envelope prose_answer = false.
Proof.
  split; [vm_compute; reflexivity|].
  split; [eexists; repeat split; vm_compute; reflexivity|].
  repeat split; vm_compute; reflexivity.
Qed.

(** C6, amended.  For every input, with or without line items, the
    output carries the ISA/GS/ST headers, the SE/GE/IEA trailers and a
    zero [W14] total exactly when the stripped answer of the model does.
    The code only asks the model for it: both prompts tell it to always
    include the complete set of required segments and to create
    placeholder values when minimal data is provided. *)
Theorem empty_receipt_follows_response :
  (forall (World : Type)
          (invoke : LLMChain -> list (string * pyval) -> World -> py_result pyval)
          (self : EDI944Converter) (tabular_data : string) (w : World)
          (d : list (string * pyval)) (text : string),
      invoke (chain self) [("tabular_data", PyStr tabular_data)] w = Return (PyDict d) ->
      Py.dict_get d "text" = Some (PyStr text) ->
      exists out,
        snd (convert_tabular_to_edi944 invoke self tabular_data w) = Return out
        /\ empty_receipt_envelope out = empty_receipt_envelope (Py.strip text))
  /\ (forall prompt_text,
        prompt_text = standard_template \/ prompt_text = synapse_template ->
        contains prompt_text "Always include the complete set of required segments" = true
        /\ contains prompt_text
             "If minimal data is provided, create appropriate placeholder values" = true).
Proof.
  split.
  - intros World invoke self tabular_data w d text Hinv Htext.
    exists (Py.strip text). split; [|reflexivity].
    exact (convert_text invoke self tabular_data w d text Hinv Htext).
  - intros prompt_text [-> | ->]; split; vm_compute; reflexivity.
Qed.

Lemma empty_receipt_follows_response_witness :
  (exists out,
      snd (convert_tabular_to_edi944
             (llm_chain (fixed_answer
                " ISA*00*>~GS*RE*1057~ST*944*0001~W14*0~SE*2*0001~GE*1*1057~IEA*1*000001057~ "))
             standard_converter header_only tt) = Return out
      /\ empty_receipt_envelope out = true)
  /\ contains standard_template "Always include the complete set of required segments"
     = true.
Proof.
  split.
  - destruct (proj1 empty_receipt_follows_response unit
                (llm_chain (fixed_answer
                   " ISA*00*>~GS*RE*1057~ST*944*0001~W14*0~SE*2*0001~GE*1*1057~IEA*1*000001057~ "))
                standard_converter header_only tt _ _ eq_refl eq_refl)
      as [out [Hout Henv]].
    exists out. split; [exact Hout|]. rewrite Henv. vm_compute. reflexivity.
  - exact (proj1 (proj2 empty_receipt_follows_response standard_template
                    (or_introl eq_refl))).
Defined.

(** ** Segment order *)

(** C7, as stated, fails.  An answer with the [W14] segment ahead of
    the line item is returned as it is. *)
Lemma segment_order_counterexample :
  snd (convert_tabular_to_edi944 (llm_chain (fixed_answer misplaced_total))
         standard_converter two_items tt) = Return misplaced_total
  /\ Edi.segment_ids misplaced_total
     = ["ISA"; "GS"; "ST"; "W17"; "W14"; "W07"; "G69"; "SE"; "GE"; "IEA"]
  /\ segment_order misplaced_total = false.
Proof. repeat split; vm_compute; reflexivity. Qed.

(** C7, amended.  The output is a single string, the stripped answer of
    the model, and its segments are in the order ISA, GS, ST, W17, N1,
    N9, then W07, G69, N9 for each line item, then W14, SE, GE, IEA
    exactly when those of that answer are.  The reference examples of
    both prompts are in this order. *)
Theorem segment_order_follows_response :
  (forall (World : Type)
          (invoke : LLMChain -> list (string * pyval) -> World -> py_result pyval)
          (self : EDI944Converter) (tabular_data : string) (w : World)
          (d : list (string * pyval)) (text : string),
      invoke (chain self) [("tabular_data", PyStr tabular_data)] w = Return (PyDict d) ->
      Py.dict_get d "text" = Some (PyStr text) ->
      exists out,
        snd (convert_tabular_to_edi944 invoke self tabular_data w) = Return out
        /\ Edi.segment_ids out = Edi.segment_ids (Py.strip text)
        /\ segment_order out = segment_order (Py.strip text))
  /\ segment_order (reference_example standard_template) = true
  /\ segment_order (reference_example synapse_template) = true.
Proof.
  split.
  - intros World invoke self tabular_data w d text Hinv Htext.
    exists (Py.strip text). split; [|split; reflexivity].
    exact (convert_text invoke self tabular_data w d text Hinv Htext).
  - split; vm_compute; reflexivity.
Qed.

Lemma segment_order_follows_response_witness :
  exists out,
    snd (convert_tabular_to_edi944 (llm_chain echo_example)
           synapse_converter two_items tt) = Return out
    /\ segment_order out = true.
Proof.
  destruct (proj1 segment_order_follows_response unit (llm_chain echo_example)
              synapse_converter two_items tt _ _ eq_refl eq_refl)
    as [out [Hout [_ Horder]]].
  exists out. split; [exact Hout|]. rewrite Horder. vm_compute. reflexivity.
Defined.

(** * Further properties of the session configuration *)

Lemma get_api_key_stored environ s key :
  Config.session_state s !! "api_key" = Some key ->
  Py.truthy key = true ->
  Config.get_api_key environ s = (Return key, s).
Proof.
  intros Hkey Htruthy. unfold Config.get_api_key. rewrite Hkey, Htruthy. reflexivity.
Qed.

Lemma get_api_key_from_environment environ s stored env_key :
  Config.session_state s !! "api_key" = Some stored ->
  Py.truthy stored = false ->
  environ !! "OPENAI_API_KEY" = Some env_key ->
  env_key <> "" ->
  Config.get_api_key environ s
  = (Return (PyStr env_key), Config.save_api_key (PyStr env_key) s).
Proof.
  intros Hstored Hfalsy Henv Hne. unfold Config.get_api_key.
  rewrite Hstored, Hfalsy, Henv. simpl default.
  apply truthy_str in Hne. rewrite Hne. reflexivity.
Qed.

Lemma init_item_keeps key v s k x :
  Config.session_state s !! k = Some x ->
  Config.session_state (Config.init_item key v s) !! k = Some x.
Proof.
  intros Hk. unfold Config.init_item.
  destruct (Config.session_state s !! key) eqn:E; [exact Hk|].
  simpl. rewrite lookup_insert_ne; [exact Hk|].
  intros ->. rewrite E in Hk. discriminate Hk.
Qed.

Lemma init_item_present key v s :
  is_Some (Config.session_state (Config.init_item key v s) !! key).
Proof.
  unfold Config.init_item.
  destruct (Config.session_state s !! key) eqn:E.
  - rewrite E. eauto.
  - simpl. rewrite lookup_insert_eq. eauto.
Qed.

Lemma init_item_log key v s : Config.log (Config.init_item key v s) = Config.log s.
Proof. unfold Config.init_item. destruct (_ !! key); reflexivity. Qed.

Lemma init_item_noop key v s :
  is_Some (Config.session_state s !! key) -> Config.init_item key v s = s.
Proof. intros [x Hx]. unfold Config.init_item. rewrite Hx. reflexivity. Qed.

Lemma is_Some_init_item key v s k :
  is_Some (Config.session_state s !! k) ->
  is_Some (Config.session_state (Config.init_item key v s) !! k).
Proof. intros [x Hx]. exists x. apply init_item_keeps. exact Hx. Qed.

Lemma init_session_state_keeps (s : Config.app_state) (k : string) (x : pyval) :
  Config.session_state s !! k = Some x ->
  Config.session_state (Config.init_session_state s) !! k = Some x.
Proof.
  intros Hk. unfold Config.init_session_state. do 4 apply init_item_keeps. exact Hk.
Qed.

Lemma init_session_state_present (s : Config.app_state) :
  Forall (fun k => is_Some (Config.session_state (Config.init_session_state s) !! k))
    ["api_key"; "temp_file_path"; "conversion_history"; "conversion_mode"].
Proof.
  unfold Config.init_session_state. repeat constructor.
  - do 3 apply is_Some_init_item. apply init_item_present.
  - do 2 apply is_Some_init_item. apply init_item_present.
  - apply is_Some_init_item. apply init_item_present.
  - apply init_item_present.
Qed.

Lemma init_session_state_has_api_key (s : Config.app_state) :
  is_Some (Config.session_state (Config.init_session_state s) !! "api_key").
Proof.
  pose proof (init_session_state_present s) as Hall.
  inversion Hall; subst. assumption.
Qed.

(** X1. [init_session_state] never overwrites: an entry that is in the
    session stays as it is, whatever its key and value.  Afterwards the
    four entries [api_key], [temp_file_path], [conversion_history] and
    [conversion_mode] exist, and nothing was logged. *)
Theorem init_session_state_keeps_entries :
  forall (s : Config.app_state),
    (forall k x,
        Config.session_state s !! k = Some x ->
        Config.session_state (Config.init_session_state s) !! k = Some x)
    /\ Forall (fun k => is_Some (Config.session_state (Config.init_session_state s) !! k))
         ["api_key"; "temp_file_path"; "conversion_history"; "conversion_mode"]
    /\ Config.log (Config.init_session_state s) = Config.log s.
Proof.
  intros s. split; [|split].
  - intros k x Hk. apply init_session_state_keeps. exact Hk.
  - apply init_session_state_present.
  - unfold Config.init_session_state. rewrite !init_item_log. reflexivity.
Qed.

Lemma init_session_state_keeps_entries_witness :
  Config.session_state
    (Config.init_session_state
       (Config.set_conversion_mode (PyStr "synapse")
          (Config.init_session_state Config.fresh))) !! "conversion_mode"
  = Some (PyStr "synapse").
Proof.
  apply (proj1 (init_session_state_keeps_entries
                  (Config.set_conversion_mode (PyStr "synapse")
                     (Config.init_session_state Config.fresh)))).
  vm_compute. reflexivity.
Defined.

(** X2. Running [init_session_state] again changes nothing: the script
    calls it on every rerun of the page, and only the first call of a
    session has an effect. *)
Theorem init_session_state_idempotent :
  forall (s : Config.app_state),
    Config.init_session_state (Config.init_session_state s)
    = Config.init_session_state s.
Proof.
  intros s.
  pose proof (init_session_state_present s) as Hall.
  inversion Hall as [|? ? H1 Hall1]; subst.
  inversion Hall1 as [|? ? H2 Hall2]; subst.
  inversion Hall2 as [|? ? H3 Hall3]; subst.
  inversion Hall3 as [|? ? H4 _]; subst.
  set (t := Config.init_session_state s) in *.
  unfold Config.init_session_state at 1.
  rewrite (init_item_noop "api_key" _ t H1).
  rewrite (init_item_noop "temp_file_path" _ t H2).
  rewrite (init_item_noop "conversion_history" _ t H3).
  apply (init_item_noop "conversion_mode" _ t H4).
Qed.

Lemma get_api_key_returns (environ : gmap string string) (s : Config.app_state) :
  is_Some (Config.session_state s !! "api_key") ->
  exists v, fst (Config.get_api_key environ s) = Return v.
Proof.
  intros [stored Hst]. unfold Config.get_api_key. rewrite Hst.
  destruct (Py.truthy stored); [eexists; reflexivity|].
  destruct (Py.truthy _); eexists; reflexivity.
Qed.





(** X4. A key saved with [save_api_key] is what [get_api_key] returns
    next, whatever the environment holds, provided the key is not empty;
    the call changes nothing more. *)
Theorem save_then_get_api_key :
  forall (environ : gmap string string) (s : Config.app_state) (key : pyval),
    Py.truthy key = true ->
    Config.get_api_key environ (Config.save_api_key key s)
    = (Return key, Config.save_api_key key s).
Proof.
  intros environ s key Hkey. apply get_api_key_stored; [|exact Hkey].
  rewrite ConfigFacts.session_save_api_key. apply lookup_insert_eq.
Qed.

Lemma save_then_get_api_key_witness :
  fst (Config.get_api_key {[ "OPENAI_API_KEY" := "sk-environment" ]}
         (Config.save_api_key (PyStr "sk-typed") Config.fresh))
  = Return (PyStr "sk-typed").
Proof.
  rewrite (save_then_get_api_key {[ "OPENAI_API_KEY" := "sk-environment" ]}
             Config.fresh (PyStr "sk-typed") eq_refl).
  reflexivity.
Defined.

(** X5. Asking for the key twice is asking once: the second call gives
    the result of the first and leaves the session and the log as the
    first left them.  In particular the key of the environment is
    copied, and logged, at most once. *)
Theorem get_api_key_stable :
  forall (environ : gmap string string) (s : Config.app_state),
    Config.get_api_key environ (snd (Config.get_api_key environ s))
    = Config.get_api_key environ s.
Proof.
  intros environ s.
  assert (Hcases :
    Config.get_api_key environ s
    = match Config.session_state s !! "api_key" with
      | None => (Raise (Config.key_error "api_key"), s)
      | Some stored =>
          if Py.truthy stored then (Return stored, s)
          else if Py.truthy (PyStr (default "" (environ !! "OPENAI_API_KEY")))
               then (Return (PyStr (default "" (environ !! "OPENAI_API_KEY"))),
                     Config.save_api_key
                       (PyStr (default "" (environ !! "OPENAI_API_KEY"))) s)
               else (Return (PyStr ""), s)
      end) by reflexivity.
  destruct (Config.session_state s !! "api_key") as [stored|] eqn:Hst.
  - destruct (Py.truthy stored) eqn:Htr.
    + rewrite Hcases. exact Hcases.
    + destruct (Py.truthy (PyStr (default "" (environ !! "OPENAI_API_KEY")))) eqn:Henv.
      * rewrite Hcases. cbn [snd]. apply get_api_key_stored; [|exact Henv].
        rewrite ConfigFacts.session_save_api_key. apply lookup_insert_eq.
      * rewrite Hcases. exact Hcases.
  - rewrite Hcases. exact Hcases.
Qed.

(** X6. With a non-empty [OPENAI_API_KEY] in the environment, the
    [Change API Key] button does not remove the key for long: the page
    clears the entry, and the next [get_api_key] returns the key of the
    environment and stores it again, so the form for a new key is not
    shown. *)
Theorem change_api_key_restored_from_environment :
  forall (environ : gmap string string) (p : page) (env_key : string),
    environ !! "OPENAI_API_KEY" = Some env_key ->
    env_key <> "" ->
    Config.session_state (app (change_api_key p)) !! "api_key" = Some (PyStr "")
    /\ fst (Config.get_api_key environ (app (change_api_key p))) = Return (PyStr env_key)
    /\ Config.session_state (snd (Config.get_api_key environ (app (change_api_key p))))
       !! "api_key" = Some (PyStr env_key).
Proof.
  intros environ p env_key Henv Hne.
  assert (Hcleared :
    Config.session_state (app (change_api_key p)) !! "api_key" = Some (PyStr "")).
  { simpl. apply lookup_insert_eq. }
  rewrite (get_api_key_from_environment environ _ _ env_key Hcleared eq_refl Henv Hne).
  split; [exact Hcleared|]. split; [reflexivity|].
  cbn [snd]. rewrite ConfigFacts.session_save_api_key. apply lookup_insert_eq.
Qed.

Lemma change_api_key_restored_from_environment_witness :
  fst (Config.get_api_key {[ "OPENAI_API_KEY" := "sk-environment" ]}
         (app (change_api_key
                 (MkPage (Config.save_api_key (PyStr "sk-typed") Config.fresh)
                         (Fs.MkWorld ∅ "/tmp" []) []))))
  = Return (PyStr "sk-environment").
Proof.
  apply (change_api_key_restored_from_environment
           {[ "OPENAI_API_KEY" := "sk-environment" ]}
           (MkPage (Config.save_api_key (PyStr "sk-typed") Config.fresh)
                   (Fs.MkWorld ∅ "/tmp" []) [])
           "sk-environment").
  - vm_compute. reflexivity.
  - discriminate.
Defined.

(** X7. [set_conversion_mode] touches nothing but the mode: every
    other entry of the session is as before, and exactly one record is
    logged, an [INFO] when the mode is stored and a [WARNING] when the
    argument is refused.  What [get_conversion_mode] reads afterwards is
    the argument when it is valid and the former mode when it is not. *)
Theorem set_conversion_mode_frame :
  forall (m : pyval) (s : Config.app_state),
    (forall k, k <> "conversion_mode" ->
               Config.session_state (Config.set_conversion_mode m s) !! k
               = Config.session_state s !! k)
    /\ (exists record,
          Config.log (Config.set_conversion_mode m s) = Config.log s ++ [record]
          /\ level record = (if Config.valid_mode m then INFO else WARNING))
    /\ Config.get_conversion_mode (Config.set_conversion_mode m s)
       = (if Config.valid_mode m then m else Config.get_conversion_mode s).
Proof.
  intros m s. unfold Config.set_conversion_mode, Config.get_conversion_mode.
  destruct (Config.valid_mode m); simpl.
  - split; [|split].
    + intros k Hk. apply lookup_insert_ne. congruence.
    + eexists. split; reflexivity.
    + rewrite lookup_insert_eq. reflexivity.
  - split; [|split].
    + reflexivity.
    + eexists. split; reflexivity.
    + reflexivity.
Qed.

Lemma set_conversion_mode_frame_witness :
  Config.session_state
    (Config.set_conversion_mode (PyStr "synapse")
       (Config.save_api_key (PyStr "sk-typed") Config.fresh)) !! "api_key"
  = Some (PyStr "sk-typed").
Proof.
  rewrite (proj1 (set_conversion_mode_frame (PyStr "synapse")
                    (Config.save_api_key (PyStr "sk-typed") Config.fresh))
             "api_key").
  - vm_compute. reflexivity.
  - discriminate.
Defined.

(** * Further properties of the converter *)

(** X8. Whatever the chain answers, a returned code has no white space
    at either end: stripping it again gives the same text. *)
Theorem convert_output_is_stripped :
  forall (World : Type)
         (invoke : LLMChain -> list (string * pyval) -> World -> py_result pyval)
         (self : EDI944Converter) (tabular_data : string) (w : World) (code : string),
    snd (convert_tabular_to_edi944 invoke self tabular_data w) = Return code ->
    Py.strip code = code.
Proof.
  intros World invoke self tabular_data w code Hret.
  rewrite convert_outcome in Hret.
  destruct (invoke _ _ w) as [result|e]; [|discriminate Hret].
  destruct (extract_edi944_code result) as [c|e] eqn:Hext; [|discriminate Hret].
  injection Hret as ->.
  assert (Hstripped : exists t, code = Py.strip t).
  { destruct result as [|s|l|d|cls shown repred]; simpl in Hext;
      try (injection Hext as <-; eexists; reflexivity).
    destruct (Py.dict_get d "text") as [[|t|l|d'|cls shown repred]|];
      simpl in Hext; try discriminate Hext;
      injection Hext as <-; eexists; reflexivity. }
  destruct Hstripped as [t ->]. apply strip_idempotent.
Qed.

Lemma convert_output_is_stripped_witness :
  Py.strip "ST*944*0001~SE*2*0001~" = "ST*944*0001~SE*2*0001~".
Proof.
  apply (convert_output_is_stripped unit
           (llm_chain (fixed_answer (String newline "ST*944*0001~SE*2*0001~  ")))
           standard_converter two_items tt).
  reflexivity.
Defined.



(** ** Saving the code *)

Lemma mkstemp_inner_found dir pre suf candidates fs file fs' rest :
  Fs.mkstemp_inner dir pre suf candidates fs = (Return file, fs', rest) ->
  fs !! file = None
  /\ fs' = <[file := ""]> fs
  /\ exists name, In name candidates /\ file = Fs.path_join dir (pre +:+ name +:+ suf).
Proof.
  induction candidates as [|name more IH]; simpl; [discriminate|].
  destruct (fs !! Fs.path_join dir (pre +:+ name +:+ suf)) eqn:E.
  - intros H. destruct (IH H) as [H1 [H2 [n [Hn Hfile]]]].
    split; [exact H1|]. split; [exact H2|]. exists n. split; [right; exact Hn | exact Hfile].
  - intros H. injection H as <- <- <-.
    split; [exact E|]. split; [reflexivity|]. exists name. split; [left|]; reflexivity.
Qed.


Lemma save_to_file_cases (self : EDI944Converter) (code : string) (w : Fs.world) :
  save_to_file self code w
  = match Fs.mkstemp_inner (Fs.tmpdir w) ("edi944_" +:+ mode_str_of self +:+ "_") ".txt"
            (Fs.names w) (Fs.files w) with
    | (Return temp_path, fs, rest) =>
        ([LogRecord INFO ("Saving " +:+ mode_str_of self
                          +:+ " EDI 944 code to temporary file");
          LogRecord INFO ("EDI 944 code saved to " +:+ temp_path)],
         Return temp_path,
         Fs.MkWorld (<[temp_path := code]> fs) (Fs.tmpdir w) rest)
    | (Raise e, fs, rest) =>
        ([LogRecord INFO ("Saving " +:+ mode_str_of self
                          +:+ " EDI 944 code to temporary file");
          LogRecord ERROR ("Error saving EDI 944 code to file: " +:+ exn_msg e)],
         Raise (PyExn "Exception" ("Error saving EDI 944 code to file: " +:+ exn_msg e)),
         Fs.MkWorld fs (Fs.tmpdir w) rest)
    end.
Proof.
  unfold save_to_file, Fs.mkstemp, mode_str_of.
  destruct (Fs.mkstemp_inner _ _ _ _ _) as [[[file|e] fs] rest]; reflexivity.
Qed.

Lemma temp_name_assoc (self : EDI944Converter) (name : string) :
  ("edi944_" +:+ mode_str_of self +:+ "_") +:+ name +:+ ".txt"
  = "edi944_" +:+ mode_str_of self +:+ "_" +:+ name +:+ ".txt".
Proof.
  unfold mode_str_of. destruct (Py.eq_str (mode self) "standard"); reflexivity.
Qed.

(** What a successful [save_to_file] did, in terms of the files. *)
Lemma save_to_file_found (self : EDI944Converter) (code : string) (w w' : Fs.world)
    (records : list log_record) (path : string) :
  save_to_file self code w = (records, Return path, w') ->
  Fs.files w !! path = None
  /\ Fs.files w' = <[path := code]> (<[path := ""]> (Fs.files w))
  /\ exists name,
       In name (Fs.names w)
       /\ path = Fs.path_join (Fs.tmpdir w)
                   ("edi944_" +:+ mode_str_of self +:+ "_" +:+ name +:+ ".txt").
Proof.
  intros Hsave. rewrite save_to_file_cases in Hsave.
  destruct (Fs.mkstemp_inner _ _ _ _ _) as [[[file|e] fs] rest] eqn:Hmk;
    [|discriminate Hsave].
  injection Hsave as <- <- <-.
  destruct (mkstemp_inner_found _ _ _ _ _ _ _ _ Hmk) as [Hfree [-> [name [Hin Hfile]]]].
  split; [exact Hfree|]. split; [reflexivity|].
  exists name. split; [exact Hin|]. rewrite <- temp_name_assoc. exact Hfile.
Qed.






(** X11. The name of the saved file tells the prompt that was used: it
    is [edi944_standard_], a drawn name and [.txt] in the temporary
    directory when the mode is ["standard"], and [edi944_synapse_] for
    every other mode, the unknown ones included, as in the choice of the
    template. *)
Theorem save_to_file_name :
  forall (self : EDI944Converter) (code : string) (w w' : Fs.world)
         (records : list log_record) (path : string),
    save_to_file self code w = (records, Return path, w') ->
    exists name,
      In name (Fs.names w)
      /\ path = Fs.path_join (Fs.tmpdir w)
                  ("edi944_" +:+ (if Py.eq_str (mode self) "standard"
                                  then "standard" else "synapse")
                   +:+ "_" +:+ name +:+ ".txt")
      /\ (template (prompt (EDI944Converter_init (api_key self) (mode self)))
          = standard_template
          <-> Py.eq_str (mode self) "standard" = true).
Proof.
  intros self code w w' records path Hsave.
  destruct (save_to_file_found _ _ _ _ _ _ Hsave) as [_ [_ [name [Hin Hpath]]]].
  exists name. split; [exact Hin|]. split; [exact Hpath|].
  unfold EDI944Converter_init. cbn [prompt template].
  destruct (Py.eq_str (mode self) "standard"); split; intros H;
    try reflexivity; try discriminate H;
    exfalso; apply templates_differ; symmetry; exact H.
Qed.

Lemma save_to_file_name_witness :
  exists name,
    In name ["aaaa"; "bbbb"]
    /\ "/tmp/edi944_synapse_aaaa.txt"
       = Fs.path_join "/tmp" ("edi944_" +:+ "synapse" +:+ "_" +:+ name +:+ ".txt").
Proof.
  destruct (save_to_file_name
              (EDI944Converter_init (PyStr "k") (PyStr "foo")) "ST~"
              (Fs.MkWorld ∅ "/tmp" ["aaaa"; "bbbb"])
              (Fs.MkWorld {[ "/tmp/edi944_synapse_aaaa.txt" := "ST~" ]} "/tmp" ["bbbb"])
              [LogRecord INFO "Saving synapse EDI 944 code to temporary file";
               LogRecord INFO "EDI 944 code saved to /tmp/edi944_synapse_aaaa.txt"]
              "/tmp/edi944_synapse_aaaa.txt")
    as [name [Hin [Hpath _]]].
  - vm_compute. reflexivity.
  - exists name. split; [exact Hin | exact Hpath].
Defined.




(** ** Download links *)






















(** * Properties of the page *)

(** ** The key form *)

Lemma strip_length_truthy (key : string) :
  0 < String.length (Py.strip key) -> Py.truthy (PyStr key) = true.
Proof.
  intros Hlen. apply truthy_str. intros ->. simpl in Hlen. lia.
Qed.

Lemma validate_api_key_short {World : Type}
    (llm_invoke : ChatOpenAI -> string -> World -> py_result pyval)
    (key : string) (w : World) :
  String.length (Py.strip key) < 10 -> validate_api_key llm_invoke key w = ([], false).
Proof.
  intros Hlen. unfold validate_api_key. apply Nat.ltb_lt in Hlen.
  rewrite Hlen, orb_true_r. reflexivity.
Qed.

Lemma validate_api_key_long {World : Type}
    (llm_invoke : ChatOpenAI -> string -> World -> py_result pyval)
    (key : string) (w : World) :
  10 <= String.length (Py.strip key) ->
  snd (validate_api_key llm_invoke key w)
  = match llm_invoke (MkChatOpenAI 0 (PyStr key) "gpt-3.5-turbo") "Hello" w with
    | Return _ => true
    | Raise _ => false
    end.
Proof.
  intros Hlen. unfold validate_api_key.
  rewrite (strip_length_truthy key) by lia.
  apply Nat.ltb_ge in Hlen. rewrite Hlen. cbn [negb orb].
  destruct (llm_invoke _ _ w); reflexivity.
Qed.

(** X15. [validate_api_key] accepts a key exactly when the key has at
    least ten characters once stripped and the test request to the
    service returns; a shorter key is refused without any request, and
    an exception of the service is a refusal, never an exception of
    [validate_api_key]. *)
Theorem validate_api_key_accepts_iff :
  forall (World : Type)
         (llm_invoke : ChatOpenAI -> string -> World -> py_result pyval)
         (key : string) (w : World),
    snd (validate_api_key llm_invoke key w) = true
    <-> (10 <= String.length (Py.strip key)
         /\ exists response,
              llm_invoke (MkChatOpenAI 0 (PyStr key) "gpt-3.5-turbo") "Hello" w
              = Return response).
Proof.
  intros World llm_invoke key w.
  destruct (Nat.ltb (String.length (Py.strip key)) 10) eqn:Hlen.
  - apply Nat.ltb_lt in Hlen. rewrite (validate_api_key_short llm_invoke key w Hlen).
    split; [discriminate|]. intros [Hge _]. lia.
  - apply Nat.ltb_ge in Hlen. rewrite (validate_api_key_long llm_invoke key w Hlen).
    destruct (llm_invoke _ _ w) as [response|e]; split.
    + intros _. split; [exact Hlen | eexists; reflexivity].
    + reflexivity.
    + discriminate.
    + intros [_ [response H]]. discriminate H.
Qed.

(** X16. The form stores a key only when it has more than ten
    characters once stripped and the test request returns; it then
    stores the key as typed, white space included.  In every other case
    the session is left as it is. *)
Theorem submit_api_key_stores_valid_keys_only :
  forall (World : Type)
         (llm_invoke : ChatOpenAI -> string -> World -> py_result pyval)
         (key : string) (w : World) (p : page),
    let accepted :=
      10 < String.length (Py.strip key)
      /\ exists response,
           llm_invoke (MkChatOpenAI 0 (PyStr key) "gpt-3.5-turbo") "Hello" w
           = Return response in
    (accepted ->
     Config.session_state (app (submit_api_key llm_invoke key w p))
     = <[ "api_key" := PyStr key ]> (Config.session_state (app p))
     /\ screen (submit_api_key llm_invoke key w p)
        = screen p ++ [StSuccess "API key saved successfully!"; StRerun])
    /\ (~ accepted ->
        Config.session_state (app (submit_api_key llm_invoke key w p))
        = Config.session_state (app p)
        /\ exists msg, screen (submit_api_key llm_invoke key w p)
                       = screen p ++ [StError msg]).
Proof.
  intros World llm_invoke key w p accepted. subst accepted.
  unfold submit_api_key.
  destruct (Nat.ltb 10 (String.length (Py.strip key))) eqn:Hlen.
  - apply Nat.ltb_lt in Hlen.
    rewrite (strip_length_truthy key) by lia. cbn [andb].
    pose proof (validate_api_key_long llm_invoke key w) as Hval.
    specialize (Hval ltac:(lia)).
    destruct (validate_api_key llm_invoke key w) as [records accepted].
    cbn [snd] in Hval. subst accepted.
    destruct (llm_invoke _ _ w) as [response|e].
    + split; [intros _; split; reflexivity|].
      intros Hnot. exfalso. apply Hnot. split; [exact Hlen | eexists; reflexivity].
    + split; [|intros _; split; [reflexivity | eexists; reflexivity]].
      intros [_ [response Hresp]]. discriminate Hresp.
  - apply Nat.ltb_ge in Hlen. rewrite andb_false_r. split.
    + intros [Hgt _]. lia.
    + intros _. split; [reflexivity | eexists; reflexivity].
Qed.

(** X17. The two length tests do not agree at ten characters: a key of
    exactly ten characters, once stripped, passes [validate_api_key]
    when the service answers, and the form still refuses it with
    [Please enter a valid API key.], without a request. *)
Theorem ten_character_key_refused_by_form :
  forall (World : Type)
         (llm_invoke : ChatOpenAI -> string -> World -> py_result pyval)
         (key : string) (w : World) (p : page) (response : pyval),
    String.length (Py.strip key) = 10 ->
    llm_invoke (MkChatOpenAI 0 (PyStr key) "gpt-3.5-turbo") "Hello" w = Return response ->
    snd (validate_api_key llm_invoke key w) = true
    /\ submit_api_key llm_invoke key w p = show [StError "Please enter a valid API key."] p.
Proof.
  intros World llm_invoke key w p response Hlen Hresp. split.
  - rewrite validate_api_key_long by lia. rewrite Hresp. reflexivity.
  - unfold submit_api_key. rewrite Hlen. rewrite andb_false_r. reflexivity.
Qed.

Lemma validate_api_key_accepts_iff_witness :
  snd (validate_api_key answering_llm " sk-0123456 " tt) = true
  /\ (snd (validate_api_key refusing_llm " sk-0123456 " tt) = true ->
      10 <= String.length (Py.strip " sk-0123456 ")).
Proof.
  split.
  - apply (proj2 (validate_api_key_accepts_iff unit answering_llm " sk-0123456 " tt)).
    split; [vm_compute; lia | eexists; reflexivity].
  - intros H.
    exact (proj1 (proj1 (validate_api_key_accepts_iff unit refusing_llm
                           " sk-0123456 " tt) H)).
Defined.

Lemma submit_api_key_stores_valid_keys_only_witness :
  Config.session_state (app (submit_api_key answering_llm " sk-01234567 " tt first_page))
  = <[ "api_key" := PyStr " sk-01234567 " ]> (Config.session_state (app first_page))
  /\ Config.session_state (app (submit_api_key refusing_llm " sk-01234567 " tt first_page))
     = Config.session_state (app first_page).
Proof.
  split.
  - apply (proj1 (submit_api_key_stores_valid_keys_only unit answering_llm
                    " sk-01234567 " tt first_page)).
    split; [vm_compute; lia | eexists; reflexivity].
  - apply (proj2 (submit_api_key_stores_valid_keys_only unit refusing_llm
                    " sk-01234567 " tt first_page)).
    intros [_ [response H]]. discriminate H.
Defined.

Lemma ten_character_key_refused_by_form_witness :
  snd (validate_api_key answering_llm "sk-0123456" tt) = true
  /\ submit_api_key answering_llm "sk-0123456" tt first_page
     = show [StError "Please enter a valid API key."] first_page.
Proof.
  apply (ten_character_key_refused_by_form unit answering_llm "sk-0123456" tt
           first_page _ eq_refl eq_refl).
Defined.

(** ** The conversion tabs *)

Lemma length_append (a b : string) :
  String.length (a +:+ b) = String.length a + String.length b.
Proof.
  induction a as [|c a IH]; [reflexivity|].
  change (S (String.length (a +:+ b)) = S (String.length a + String.length b)).
  rewrite IH. reflexivity.
Qed.

Lemma length_substring_prefix (n : nat) (s : string) :
  String.length (String.substring 0 n s) <= n.
Proof.
  revert s. induction n as [|n IH]; intros s.
  - destruct s; simpl; lia.
  - destruct s as [|c s]; simpl; [lia|]. specialize (IH s). lia.
Qed.

Lemma preview_length (text : string) : String.length (preview text) <= 103.
Proof.
  unfold preview. destruct (Nat.ltb 100 (String.length text)) eqn:E.
  - rewrite length_append. pose proof (length_substring_prefix 100 text).
    change (String.length "...") with 3. lia.
  - apply Nat.ltb_ge in E. lia.
Qed.

Lemma preview_short (text : string) :
  String.length text <= 100 -> preview text = text.
Proof.
  intros H. unfold preview. apply Nat.ltb_ge in H. rewrite H. reflexivity.
Qed.

Lemma history_entry_well_formed t timestamp data code path :
  well_formed_entry (history_entry t timestamp data code path).
Proof.
  unfold well_formed_entry, history_entry.
  exists timestamp, (tab_label t), (preview data), (preview code), path.
  split; [reflexivity|]. split; apply preview_length.
Qed.

Lemma file_after_read path code w :
  Fs.read path w = Return code -> Fs.files w !! path = Some code.
Proof.
  unfold Fs.read. destruct (Fs.files w !! path); [|discriminate].
  intros H. injection H as ->. reflexivity.
Qed.



Lemma get_api_key_other_entries environ s k :
  k <> "api_key" ->
  Config.session_state (snd (Config.get_api_key environ s)) !! k
  = Config.session_state s !! k.
Proof.
  intros Hk. unfold Config.get_api_key.
  destruct (Config.session_state s !! "api_key") as [stored|]; [|reflexivity].
  destruct (Py.truthy stored); [reflexivity|].
  destruct (Py.truthy _); [|reflexivity].
  simpl. apply lookup_insert_ne. congruence.
Qed.

(** X19. A click that produces nothing.  With an empty input area the
    page only shows [Please enter tabular data to convert.]: no key is
    looked up and no request is made.  When the chain call raises, no
    file is created, the session is as before, and the error shown
    carries the prefix twice, [Error during conversion: Error during
    conversion: ], followed by the message of the exception. *)
Theorem convert_clicked_without_output :
  forall (World : Type)
         (invoke : LLMChain -> list (string * pyval) -> World -> py_result pyval)
         (environ : gmap string string) (t : tab) (data timestamp : string) (w : World)
         (p : page),
    let p' := convert_clicked invoke environ t data timestamp w p in
    (data = "" -> p' = show [StError "Please enter tabular data to convert."] p)
    /\ (forall key cause,
          data <> "" ->
          Config.session_state (app p) !! "api_key" = Some key ->
          Py.truthy key = true ->
          invoke (chain (EDI944Converter_init key (PyStr (tab_mode t))))
            [("tabular_data", PyStr data)] w = Raise cause ->
          disk p' = disk p
          /\ Config.session_state (app p') = Config.session_state (app p)
          /\ screen p'
             = screen p ++
               [StSpinner "Converting data... This may take a moment.";
                StError ("Error during conversion: Error during conversion: "
                         +:+ exn_msg cause)]
          /\ last (Config.log (app p'))
             = Some (LogRecord ERROR
                       ("Conversion error: Error during conversion: "
                        +:+ exn_msg cause))).
Proof.
  intros World invoke environ t data timestamp w p p'. subst p'. split.
  - intros ->. reflexivity.
  - intros key cause Hdata Hkey Htruthy Hinv. unfold convert_clicked.
    assert (Hd : Py.truthy (PyStr data) = true) by (apply truthy_str; exact Hdata).
    rewrite Hd. cbn [negb show app disk screen].
    rewrite (get_api_key_stored environ (app p) key Hkey Htruthy).
    unfold convert_tabular_to_edi944. rewrite Hinv.
    unfold conversion_failed. cbn [app disk screen logged exn_msg Config.session_state
                                     Config.log].
    split; [reflexivity|]. split; [reflexivity|]. split.
    + rewrite <- app_assoc. reflexivity.
    + rewrite !last_snoc. reflexivity.
Qed.

Lemma convert_clicked_without_output_witness :
  convert_clicked (failing_chain "Connection error.") ∅ standard_tab "" "2025-03-04" tt
    ready_page
  = show [StError "Please enter tabular data to convert."] ready_page
  /\ screen (convert_clicked (failing_chain "Connection error.") ∅ synapse_tab
               two_items "2025-03-04" tt ready_page)
     = screen ready_page ++
       [StSpinner "Converting data... This may take a moment.";
        StError ("Error during conversion: Error during conversion: "
                 +:+ "Connection error.")].
Proof.
  split.
  - apply (proj1 (convert_clicked_without_output unit (failing_chain "Connection error.")
                    ∅ standard_tab "" "2025-03-04" tt ready_page)).
    reflexivity.
  - apply (proj2 (convert_clicked_without_output unit (failing_chain "Connection error.")
                    ∅ synapse_tab two_items "2025-03-04" tt ready_page)
             (PyStr "sk-test-0123456789")
             (PyExn "APIConnectionError" "Connection error.")).
    + discriminate.
    + vm_compute. reflexivity.
    + reflexivity.
    + reflexivity.
Defined.

Lemma history_same (s s' : Config.app_state) :
  Config.session_state s' !! "conversion_history"
  = Config.session_state s !! "conversion_history" ->
  history s' = history s.
Proof. intros H. unfold history. rewrite H. reflexivity. Qed.

Lemma history_conversion_failed e q : history (app (conversion_failed e q)) = history (app q).
Proof. reflexivity. Qed.

Lemma history_append_grows entry s s' :
  history_append entry s = Return s' -> history s' = history s ++ [entry].
Proof.
  unfold history_append, history.
  destruct (Config.session_state s !! "conversion_history") as [[| |l| |]|];
    try discriminate.
  intros H. injection H as <-. simpl. rewrite lookup_insert_eq. reflexivity.
Qed.

(** X20. The history is append-only and well formed.  A click on a
    convert button, whatever the input, the service and the files do,
    either leaves the history as it is or appends one entry to it; and
    when every entry had the five keys with previews of at most 103
    characters, every entry still has. *)
Theorem convert_clicked_history :
  forall (World : Type)
         (invoke : LLMChain -> list (string * pyval) -> World -> py_result pyval)
         (environ : gmap string string) (t : tab) (data timestamp : string) (w : World)
         (p : page),
    let p' := convert_clicked invoke environ t data timestamp w p in
    (history (app p') = history (app p)
     \/ exists entry,
          well_formed_entry entry /\ history (app p') = history (app p) ++ [entry])
    /\ (Forall well_formed_entry (history (app p)) ->
        Forall well_formed_entry (history (app p'))).
Proof.
  intros World invoke environ t data timestamp w p p'.
  assert (Hstep : history (app p') = history (app p)
                  \/ exists entry,
                       well_formed_entry entry
                       /\ history (app p') = history (app p) ++ [entry]).
  { subst p'. unfold convert_clicked.
    destruct (negb (Py.truthy (PyStr data))); [left; reflexivity|].
    cbn [show app disk screen].
    pose proof (get_api_key_other_entries environ (app p) "conversion_history") as Hget.
    destruct (Config.get_api_key environ (app p)) as [[key|e] s1]; cbn [snd] in Hget.
    2:{ left. rewrite history_conversion_failed. apply history_same.
        apply Hget. discriminate. }
    assert (Hs1 : history s1 = history (app p))
      by (apply history_same; apply Hget; discriminate).
    destruct (convert_tabular_to_edi944 _ _ data w) as [records [code|e]].
    2:{ left. rewrite history_conversion_failed. exact Hs1. }
    destruct (save_to_file _ code (disk p)) as [[saving [path|e]] d'].
    2:{ left. rewrite history_conversion_failed. exact Hs1. }
    destruct (history_append _ _) as [s4|e] eqn:Happ.
    2:{ left. rewrite history_conversion_failed. rewrite <- Hs1.
        apply history_same. cbn [app Config.set_item Config.session_state logged].
        apply lookup_insert_ne. discriminate. }
    right. exists (history_entry t timestamp data code path).
    split; [apply history_entry_well_formed|].
    destruct (get_download_link path (tab_download t) d') as [linking link].
    cbn [app]. apply history_append_grows in Happ.
    change (history (logged linking s4)) with (history s4). rewrite Happ.
    f_equal. rewrite <- Hs1. apply history_same.
    cbn [Config.set_item Config.session_state logged].
    apply lookup_insert_ne. discriminate. }
  split; [exact Hstep|].
  intros Hall. destruct Hstep as [-> | [entry [Hentry ->]]]; [exact Hall|].
  apply Forall_app. split; [exact Hall|]. constructor; [exact Hentry | constructor].
Qed.

Lemma convert_clicked_history_witness :
  Forall well_formed_entry
    (history (app (convert_clicked (llm_chain echo_example) ∅ synapse_tab two_items
                     "2025-03-04 16:47:26" tt ready_page))).
Proof.
  apply (proj2 (convert_clicked_history unit (llm_chain echo_example) ∅ synapse_tab
                  two_items "2025-03-04 16:47:26" tt ready_page)).
  vm_compute. constructor.
Defined.

(** ** Sessions *)

Lemma perform_keeps_entries environ s a k :
  is_Some (Config.session_state s !! k) ->
  is_Some (Config.session_state (Config.perform environ s a) !! k).
Proof.
  intros [x Hx].
  assert (Hins : forall key v (m : gmap string pyval),
             is_Some (m !! k) -> is_Some (<[key := v]> m !! k)).
  { intros key v m Hm. destruct (decide (key = k)) as [->|Hne].
    - rewrite lookup_insert_eq. eauto.
    - rewrite lookup_insert_ne by exact Hne. exact Hm. }
  destruct a as [|key| |m| | |path|entry]; simpl.
  - exists x. apply init_session_state_keeps. exact Hx.
  - apply Hins. eauto.
  - unfold Config.get_api_key.
    destruct (Config.session_state s !! "api_key") as [stored|]; [|simpl; eauto].
    destruct (Py.truthy stored); [simpl; eauto|].
    destruct (Py.truthy _); [|simpl; eauto].
    simpl. apply Hins. eauto.
  - unfold Config.set_conversion_mode. destruct (Config.valid_mode m); simpl.
    + apply Hins. eauto.
    + eauto.
  - eauto.
  - apply Hins. eauto.
  - apply Hins. eauto.
  - unfold Config.append_history.
    destruct (Config.session_state s !! "conversion_history") as [[| |l| |]|];
      simpl; eauto.
Qed.

(** X21. Nothing is ever removed from a session: an entry that exists
    is still there after any run of the configuration functions and of
    the session writes of the page.  So in a run that starts with
    [init_session_state], as every run of the page does, [get_api_key]
    never raises its [KeyError]. *)
Theorem session_entries_persist :
  forall (environ : gmap string string) (actions : list Config.action)
         (s : Config.app_state),
    (forall k, is_Some (Config.session_state s !! k) ->
               is_Some (Config.session_state (Config.run environ actions s) !! k))
    /\ exists v,
         fst (Config.get_api_key environ
                (Config.run environ (Config.InitSessionState :: actions) s))
         = Return v.
Proof.
  intros environ actions s.
  assert (Hrun : forall acts t k,
             is_Some (Config.session_state t !! k) ->
             is_Some (Config.session_state (Config.run environ acts t) !! k)).
  { unfold Config.run. induction acts as [|a rest IH]; intros t k Hk; simpl;
      [exact Hk|].
    apply IH. apply perform_keeps_entries. exact Hk. }
  split; [intros k; apply Hrun|].
  apply get_api_key_returns.
  change (Config.run environ (Config.InitSessionState :: actions) s)
    with (Config.run environ actions (Config.init_session_state s)).
  apply Hrun. apply init_session_state_has_api_key.
Qed.

Lemma session_entries_persist_witness :
  is_Some
    (Config.session_state
       (Config.run ∅ [Config.ClearApiKey; Config.SetConversionMode (PyStr "foo")]
          (Config.init_session_state Config.fresh)) !! "conversion_history").
Proof.
  apply (proj1 (session_entries_persist ∅
                  [Config.ClearApiKey; Config.SetConversionMode (PyStr "foo")]
                  (Config.init_session_state Config.fresh))).
  exists (PyList []). vm_compute. reflexivity.
Defined.
